(** * PdfToMarkdown: configuration, conversion runner and conversion history

    A shallow embedding of the glue code of the repository:
    - [PdfToMarkdownConverter._load_config], [convert_pdf], [get_config]
      (src/PdfToMarkdownConverter.py);
    - [ConversionHistory.load], [save], [add_conversion], [get_conversion]
      (src/app.py).

    Python dictionaries are finite maps ([gmap string _]), Python lists are
    lists, exceptions are an explicit outcome of every effectful operation,
    and the state a method reads and writes is threaded explicitly.  The
    [print] calls of the source write to standard output only and are left
    out. *)

From Stdlib Require Import ZArith Ascii String.
From stdpp Require Import base option list gmap strings fin_maps.

#[local] Set Warnings "-register-all".

(** ** Python values and exceptions *)

(** What [json.load] returns: [None], [bool], [int], [str], [list], [dict]
    with string keys.  Floating-point numbers are not represented. *)
Inductive json : Type :=
  | JNull
  | JBool (b : bool)
  | JInt (z : Z)
  | JStr (s : string)
  | JArr (l : list json)
  | JObj (m : gmap string json).

(** The exceptions the modelled code can raise or let through, each with
    its message (the path, for the errors of the file system). *)
Inductive exn : Type :=
  | FileNotFoundError (msg : string)
  | FileExistsError (path : string)
  | NotADirectoryError (path : string)
  | IsADirectoryError (path : string)
  | JSONDecodeError (msg : string)
  | UnicodeDecodeError (msg : string)
  | RecursionError (msg : string)
  | TypeError (msg : string)
  | ValueError (msg : string)
  | AttributeError (msg : string)
  | KeyError (key : string)
  | ExternalError (msg : string).

Definition str_of_exn (e : exn) : string :=
  match e with
  | FileNotFoundError m | FileExistsError m | NotADirectoryError m
  | IsADirectoryError m | JSONDecodeError m | UnicodeDecodeError m
  | RecursionError m | TypeError m | ValueError m
  | AttributeError m | KeyError m | ExternalError m => m
  end.

Inductive res (A : Type) : Type :=
  | Ok (a : A)
  | Raise (e : exn).
Arguments Ok {A} a.
Arguments Raise {A} e.

(** ** A state monad with exceptions

    [M S A] is a computation that reads and writes a state of type [S] and
    either returns an [A] or raises; the state reached is kept in both
    cases, as a Python exception does not roll back side effects. *)
Definition M (S A : Type) : Type := S → res A * S.

#[export] Instance M_ret {S} : MRet (M S) := λ A a s, (Ok a, s).
#[export] Instance M_bind {S} : MBind (M S) := λ A B k c s,
  match c s with
  | (Ok a, s') => k a s'
  | (Raise e, s') => (Raise e, s')
  end.
Definition raise {S A} (e : exn) : M S A := λ s, (Raise e, s).
(** [try: c except ...: h], where [h] selects the exceptions it handles. *)
Definition try_except {S A} (c : M S A) (h : exn → option (M S A)) : M S A :=
  λ s, match c s with
       | (Ok a, s') => (Ok a, s')
       | (Raise e, s') =>
           match h e with
           | Some k => k s'
           | None => (Raise e, s')
           end
       end.

(** ** The JSON codec

    [json.load] and [json.dump] belong to the Python standard library.  They
    are taken as an interface: [text] is what a file holds, and
    [json_loads t] is what reading and decoding a file that holds [t] does:
    it returns the value, or raises [json.JSONDecodeError] when [t] is not a
    JSON document, or raises another exception ([UnicodeDecodeError] for
    bytes that are not text, [RecursionError] for a document nested too
    deeply, [ValueError] for an integer with too many digits).  A dumped
    value parses back to itself.

    The [dict] that [json.load] builds lists its keys in the order of the
    document, which a finite map does not record: [key_order i m] is that
    order for the dict with the items [m] met as element [i] of a loaded
    list. *)
Class JsonCodec : Type := {
  text : Type;
  json_loads : text → res json;
  json_dumps : json → text;
  key_order : nat → gmap string json → list string;
  json_loads_dumps : ∀ v, json_loads (json_dumps v) = Ok v;
  key_order_keys : ∀ i m, key_order i m ≡ₚ (map_to_list m).*1
}.

(** ** [os.path] (posixpath) *)
Module PosixPath.

Definition sep : ascii := "/"%char.
Definition extsep : ascii := "."%char.

(** [s.rfind(c)] with positions counted from [i]: index of the last
    occurrence, [-1] when there is none. *)
Fixpoint rfind_from (i : Z) (c : ascii) (s : string) : Z :=
  match s with
  | EmptyString => (-1)%Z
  | String a r =>
      let k := rfind_from (i + 1) c r in
      if (0 <=? k)%Z then k
      else if Ascii.eqb a c then i else (-1)%Z
  end.
Definition rfind (c : ascii) (s : string) : Z := rfind_from 0 c s.

(** The slices [s[:i]] and [s[i:]] for [0 <= i]. *)
Definition upto (i : Z) (s : string) : string :=
  substring 0 (Z.to_nat i) s.
Definition from (i : Z) (s : string) : string :=
  substring (Z.to_nat i) (String.length s - Z.to_nat i) s.

Definition startswith_sep (s : string) : bool :=
  match s with String a _ => Ascii.eqb a sep | EmptyString => false end.
Fixpoint endswith_sep (s : string) : bool :=
  match s with
  | EmptyString => false
  | String a EmptyString => Ascii.eqb a sep
  | String _ r => endswith_sep r
  end.

(** [os.path.basename(p)]: [i = p.rfind(sep) + 1; return p[i:]]. *)
Definition basename (p : string) : string :=
  from (rfind sep p + 1) p.

(** The loop of [genericpath._splitext] that skips leading dots: is there
    a character other than [extsep] in [p[filenameIndex:dotIndex]]? *)
Fixpoint has_non_dot (n : nat) (filenameIndex : Z) (p : string) : bool :=
  match n with
  | O => false
  | S n' =>
      if negb (String.eqb (substring (Z.to_nat filenameIndex) 1 p)
                          (String extsep EmptyString))
      then true
      else has_non_dot n' (filenameIndex + 1) p
  end.

(** [os.path.splitext(p)]. *)
Definition splitext (p : string) : string * string :=
  let sepIndex := rfind sep p in
  let dotIndex := rfind extsep p in
  if (sepIndex <? dotIndex)%Z then
    let filenameIndex := (sepIndex + 1)%Z in
    if has_non_dot (Z.to_nat (dotIndex - filenameIndex)) filenameIndex p
    then (upto dotIndex p, from dotIndex p)
    else (p, EmptyString)
  else (p, EmptyString).

(** [os.path.join(a, b)]. *)
Definition join (a b : string) : string :=
  if startswith_sep b then b
  else if (String.eqb a EmptyString || endswith_sep a)%bool then a +:+ b
  else a +:+ String sep b.


End PosixPath.

(** ** The file system

    A node is a regular file or a directory.  A path is resolved to the list
    of its components below the root: relative paths start from the current
    directory, empty components and [.] are dropped.  Symbolic links, [..]
    and permissions are not modelled. *)
Module Os.
Section os.
Context `{JsonCodec}.

Inductive node : Type :=
  | File (content : text)
  | Dir.

Record world : Type := World {
  files : gmap (list string) node;
  cwd : string
}.

(** The pieces of [p] between separators, [cur] being the piece read so
    far. *)
Fixpoint pieces (cur : string) (p : string) : list string :=
  match p with
  | EmptyString => [cur]
  | String a r =>
      if Ascii.eqb a PosixPath.sep then cur :: pieces EmptyString r
      else pieces (cur +:+ String a EmptyString) r
  end.

Definition components (p : string) : list string :=
  filter (λ c, c ≠ "" ∧ c ≠ ".") (pieces "" p).

Definition resolve (w : world) (p : string) : list string :=
  (if PosixPath.startswith_sep p then [] else components (cwd w))
  ++ components p.

(** What is at [p]: nothing for the empty path, the root directory for a
    path with no component, and a regular file only when [p] does not end
    with a separator. *)
Definition stat (w : world) (p : string) : option node :=
  if String.eqb p "" then None
  else match resolve w p with
       | [] => Some Dir
       | key =>
           match files w !! key with
           | Some (File c) =>
               if PosixPath.endswith_sep p then None else Some (File c)
           | o => o
           end
       end.

(** [os.path.exists(p)], [os.path.isdir(p)], [os.path.isfile(p)]. *)
Definition path_exists (w : world) (p : string) : bool :=
  match stat w p with Some _ => true | None => false end.
Definition path_isdir (w : world) (p : string) : bool :=
  match stat w p with Some Dir => true | _ => false end.
Definition path_isfile (w : world) (p : string) : bool :=
  match stat w p with Some (File _) => true | _ => false end.

Definition os_path_exists (p : string) : M world bool :=
  λ w, (Ok (path_exists w p), w).
Definition os_getcwd : M world string :=
  λ w, (Ok (cwd w), w).

(** The keys of the directories from the root down to [pre ++ rest],
    excluding [pre] itself. *)
Fixpoint chain (pre rest : list string) : list (list string) :=
  match rest with
  | [] => []
  | c :: r => (pre ++ [c]) :: chain (pre ++ [c]) r
  end.

(** One directory of [os.makedirs(name, exist_ok=True)]: it is created when
    missing and left alone when it is a directory; a regular file in the way
    stops with [FileExistsError] at [name] itself and [NotADirectoryError]
    above it. *)
Definition ensure_dir (name : string) (target : list string)
    (acc : option exn * gmap (list string) node) (key : list string)
    : option exn * gmap (list string) node :=
  match acc with
  | (Some e, m) => (Some e, m)
  | (None, m) =>
      match m !! key with
      | None => (None, <[key := Dir]> m)
      | Some Dir => (None, m)
      | Some (File _) =>
          (Some (if decide (key = target) then FileExistsError name
                 else NotADirectoryError name), m)
      end
  end.

(** [os.makedirs(name, exist_ok=True)]. *)
Definition os_makedirs (name : string) : M world unit := λ w,
  if String.eqb name "" then (Raise (FileNotFoundError name), w)
  else
    let target := resolve w name in
    match foldl (ensure_dir name target) (None, files w) (chain [] target) with
    | (None, m) => (Ok tt, World m (cwd w))
    | (Some e, m) => (Raise e, World m (cwd w))
    end.


(** [with open(p, 'r') as f: f.read()]. *)
Definition read_text (p : string) : M world text := λ w,
  match stat w p with
  | Some (File c) => (Ok c, w)
  | Some Dir => (Raise (IsADirectoryError p), w)
  | None => (Raise (FileNotFoundError p), w)
  end.

(** [with open(p, 'r') as f: json.load(f)]. *)
Definition json_load (p : string) : M world json :=
  t ← read_text p;
  match json_loads t with
  | Ok v => mret v
  | Raise e => raise e
  end.

(** [with open(p, 'w') as f: f.write(c)]: the directory of [p] must exist;
    the file is created or replaced. *)
Definition write_text (p : string) (c : text) : M world unit := λ w,
  if (String.eqb p "" || PosixPath.endswith_sep p)%bool
  then (Raise (IsADirectoryError p), w)
  else
    let key := resolve w p in
    match files w !! key with
    | Some Dir => (Raise (IsADirectoryError p), w)
    | _ =>
        match removelast key with
        | [] => (Ok tt, World (<[key := File c]> (files w)) (cwd w))
        | parent =>
            match files w !! parent with
            | Some Dir => (Ok tt, World (<[key := File c]> (files w)) (cwd w))
            | Some (File _) => (Raise (NotADirectoryError p), w)
            | None => (Raise (FileNotFoundError p), w)
            end
        end
    end.

End os.
End Os.

(** ** src/PdfToMarkdownConverter.py *)
Module Converter.
Import Os.

(** The conversion library (marker), an external collaborator: building a
    [PdfConverter] from a configuration ([ConfigParser(config)],
    [create_model_dict()], [PdfConverter(...)]), calling it on a path, and
    [save_output(rendered, directory, base_name)].  [extension rendered] is
    the extension of the primary document of [rendered] ([md] for markdown),
    which [save_output] writes as [base_name.extension]. *)
Class Marker `{JsonCodec} : Type := {
  pdf_converter : Type;
  rendered : Type;
  new_pdf_converter : gmap string json → M world pdf_converter;
  call_converter : pdf_converter → string → M world rendered;
  save_output : rendered → string → string → M world unit;
  extension : rendered → string
}.

Section converter.
Context `{Marker}.

(** Modelled from the spec: [save_output] is a function of the conversion
    library, which is not part of the repository.  When it returns, the
    output directory exists and holds the primary document, named after the
    base name with the extension of the format. *)
Definition save_output_writes_primary : Prop :=
  ∀ r dir base w w',
    save_output r dir base w = (Ok tt, w') →
    path_isdir w' dir = true
    ∧ path_isfile w' (PosixPath.join dir (base +:+ "." +:+ extension r)) = true.

(** The instance: [self.config] and [self.converter].  Of a configuration
    the entries whose keys are strings are kept; an entry under a key that
    is a number, a boolean or [None], which only an override file holding a
    list can add, is not represented. *)
Record PdfToMarkdownConverter : Type := Self {
  config : gmap string json;
  converter : option pdf_converter
}.

(** A method runs on the instance and the file system. *)
Definition state : Type := PdfToMarkdownConverter * world.

Definition in_os {A} (c : M world A) : M state A := λ '(self, w),
  let '(r, w') := c w in (r, (self, w')).
Definition get_self : M state PdfToMarkdownConverter :=
  λ '(self, w), (Ok self, (self, w)).
Definition set_converter (c : pdf_converter) : M state unit :=
  λ '(self, w), (Ok tt, (Self (config self) (Some c), w)).

Definition default_config : gmap string json :=
  {[ "output_format" := JStr "markdown";
     "use_llm" := JBool true;
     "llm_service" := JStr "marker.services.ollama.OllamaService";
     "ollama_base_url" := JStr "http://localhost:11434";
     "ollama_model" := JStr "qwen2.5:14b" ]}.

(** One element of the sequence given to [dict.update], the element [i] of
    a list or the character [i] of a string: it is read as a pair, and the
    pair is a list of two items, a string of two characters or a dict with
    two keys, which counts as the pair of its keys.  The first item is the
    key: a string names an entry ([Some]); a number, a boolean or [None] is
    accepted and names an entry that is not represented ([None]); a list or
    a dict is not hashable. *)
Definition update_item (i : nat) (item : json)
    : res (option (string * json)) :=
  match item with
  | JArr [k; v] =>
      match k with
      | JStr k => Ok (Some (k, v))
      | JNull | JBool _ | JInt _ => Ok None
      | JArr _ => Raise (TypeError "unhashable type: 'list'")
      | JObj _ => Raise (TypeError "unhashable type: 'dict'")
      end
  | JStr (String a (String b EmptyString)) =>
      Ok (Some (String a EmptyString, JStr (String b EmptyString)))
  | JObj m =>
      match key_order i m with
      | [k; v] => Ok (Some (k, JStr v))
      | _ =>
          Raise (ValueError "dictionary update sequence element has the wrong length; 2 is required")
      end
  | JArr _ | JStr _ =>
      Raise (ValueError "dictionary update sequence element has the wrong length; 2 is required")
  | JNull | JBool _ | JInt _ =>
      Raise (TypeError "cannot convert dictionary update sequence element to a sequence")
  end.

(** The loop of [d.update(sequence)] from element [i] on: it stops at the
    first element that raises. *)
Fixpoint update_from (i : nat) (items : list json) (d : gmap string json)
    : res (gmap string json) :=
  match items with
  | [] => Ok d
  | item :: rest =>
      match update_item i item with
      | Ok (Some (k, v)) => update_from (S i) rest (<[k := v]> d)
      | Ok None => update_from (S i) rest d
      | Raise e => Raise e
      end
  end.

(** [d.update(other)]: the keys of a mapping overwrite those of [d]; a
    sequence is read as pairs; anything else is not iterable. *)
Definition dict_update (d : gmap string json) (other : json)
    : res (gmap string json) :=
  match other with
  | JObj m => Ok (m ∪ d)
  | JArr l => update_from 0 l d
  | JStr s =>
      update_from 0
        ((λ a, JStr (String a EmptyString)) <$> list_ascii_of_string s) d
  | JNull | JBool _ | JInt _ => Raise (TypeError "object is not iterable")
  end.

(** [json.JSONDecodeError(msg, doc, pos)]: the constructor has three
    required parameters; a call that leaves some out raises [TypeError]. *)
Definition new_JSONDecodeError (msg : string) (doc pos : option string)
    : res exn :=
  match doc, pos with
  | Some _, Some _ => Ok (JSONDecodeError msg)
  | None, None =>
      Raise (TypeError "JSONDecodeError.__init__() missing 2 required positional arguments: 'doc' and 'pos'")
  | Some _, None =>
      Raise (TypeError "JSONDecodeError.__init__() missing 1 required positional argument: 'pos'")
  | None, Some _ =>
      Raise (TypeError "JSONDecodeError.__init__() missing 1 required positional argument: 'doc'")
  end.

(** [raise C(...)]: the constructor call comes first, and what it raises
    replaces the exception that was to be raised. *)
Definition raise_new {S A} (e : res exn) : M S A :=
  match e with
  | Ok e' => raise e'
  | Raise e' => raise e'
  end.

Definition lift_res {S A} (r : res A) : M S A := λ s, (r, s).

(** [PdfToMarkdownConverter._load_config(config_path)]. *)
Definition _load_config (config_path : option string)
    : M world (gmap string json) :=
  match config_path with
  | None => mret default_config
  | Some config_path =>
      found ← os_path_exists config_path;
      if negb found then
        raise (FileNotFoundError
                 ("Configuration file not found: " +:+ config_path))
      else
        try_except
          (loaded_config ← json_load config_path;
           let merged_config := default_config in
           merged_config ← lift_res (dict_update merged_config loaded_config);
           mret merged_config)
          (λ e, match e with
                | JSONDecodeError _ =>
                    Some (raise_new (new_JSONDecodeError
                            ("Invalid JSON in config file " +:+ config_path
                             +:+ ": " +:+ str_of_exn e) None None))
                | _ => None
                end)
  end.

(** [PdfToMarkdownConverter.__init__(config_path)]. *)
Definition __init__ (config_path : option string)
    : M world PdfToMarkdownConverter :=
  config ← _load_config config_path;
  mret (Self config None).

(** [PdfToMarkdownConverter._setup_converter()]. *)
Definition _setup_converter : M state unit :=
  self ← get_self;
  c ← in_os (new_pdf_converter (config self));
  set_converter c.

(** The second half of [convert_pdf], from "Setup converter if not already
    done" to the [return]. *)
Definition convert_into (pdf_path final_output_path fname : string)
    : M state string :=
  self ← get_self;
  (match converter self with
   | None => _setup_converter
   | Some _ => mret tt
   end);;
  self ← get_self;
  match converter self with
  | None => raise (TypeError "'NoneType' object is not callable")
  | Some c =>
      rendered ← in_os (call_converter c pdf_path);
      in_os (save_output rendered final_output_path fname);;
      mret final_output_path
  end.

(** [PdfToMarkdownConverter.convert_pdf(pdf_path, output_path)]: the checks
    and the output directory, then [convert_into]. *)
Definition convert_pdf (pdf_path : string) (output_path : option string)
    : M state string :=
  found ← in_os (os_path_exists pdf_path);
  if negb found then
    raise (FileNotFoundError ("PDF file not found: " +:+ pdf_path))
  else
    output_path ←
      match output_path with
      | None => in_os os_getcwd
      | Some o =>
          there ← in_os (os_path_exists o);
          if negb there then in_os os_getcwd else mret o
      end;
    let pdf_name := PosixPath.basename pdf_path in
    let fname := (PosixPath.splitext pdf_name).1 in
    let final_output_path := PosixPath.join output_path fname in
    in_os (os_makedirs final_output_path);;
    convert_into pdf_path final_output_path fname.

End converter.
End Converter.

(** ** src/app.py: [ConversionHistory] *)
Module History.
Section history.
Context `{JsonCodec}.

(** The persisted history, [Config.CONVERSION_HISTORY_FILE]: absent, or a
    file with some content.  What reading the file does with that content
    (a value, a [JSONDecodeError], or another exception) is [json_loads] of
    it.  A history path that is a directory is not a state of this model. *)
Definition store : Type := option text.

Definition MAX_RECENT_CONVERSIONS : nat := 10.

(** [os.path.exists(Config.CONVERSION_HISTORY_FILE)]. *)
Definition history_file_exists : M store bool := λ st,
  (Ok (match st with Some _ => true | None => false end), st).

(** [with open(Config.CONVERSION_HISTORY_FILE, 'r') as f: json.load(f)]. *)
Definition json_load_history : M store json := λ st,
  match st with
  | None => (Raise (FileNotFoundError "conversion_history.json"), st)
  | Some t =>
      match json_loads t with
      | Ok v => (Ok v, st)
      | Raise e => (Raise e, st)
      end
  end.

(** [with open(Config.CONVERSION_HISTORY_FILE, 'w') as f:
    json.dump(history, f, indent=4)]. *)
Definition json_dump_history (history : json) : M store unit := λ _,
  (Ok tt, Some (json_dumps history)).

(** [ConversionHistory.load()]. *)
Definition load : M store json :=
  found ← history_file_exists;
  if (found : bool) then
    try_except json_load_history
      (λ e, match e with
            | JSONDecodeError _ => Some (mret (JArr []))
            | _ => None
            end)
  else mret (JArr []).

(** [ConversionHistory.save(history)]. *)
Definition save (history : json) : M store unit :=
  json_dump_history history.

(** [history.insert(0, x)]: a method of lists only. *)
Definition py_insert0 (history x : json) : res json :=
  match history with
  | JArr l => Ok (JArr (x :: l))
  | _ => Raise (AttributeError "object has no attribute 'insert'")
  end.

(** [history[:n]]. *)
Definition py_slice_to (n : nat) (history : json) : res json :=
  match history with
  | JArr l => Ok (JArr (take n l))
  | JStr s => Ok (JStr (substring 0 n s))
  | _ => Raise (TypeError "object is not subscriptable by a slice")
  end.

(** What [uuid.uuid4()] and [datetime.datetime.now().isoformat()] return
    during one call of [add_conversion]. *)
Record entropy : Type := Entropy {
  uuid4 : string;
  now_isoformat : string
}.

(** The record [new_conversion] of [add_conversion]. *)
Definition new_conversion (pdf_path output_path : string) (e : entropy)
    : json :=
  JObj {[ "id" := JStr (uuid4 e);
          "filename" := JStr (PosixPath.basename pdf_path);
          "pdf_path" := JStr pdf_path;
          "output_path" := JStr output_path;
          "timestamp" := JStr (now_isoformat e);
          "has_preview" := JBool true ]}.

Definition lift_res {A} (r : res A) : M store A := λ s, (r, s).

(** [ConversionHistory.add_conversion(pdf_path, output_path)]. *)
Definition add_conversion (pdf_path output_path : string) (e : entropy)
    : M store string :=
  history ← load;
  let conversion_id := uuid4 e in
  let new_conversion := new_conversion pdf_path output_path e in
  history ← lift_res (py_insert0 history new_conversion);
  history ← lift_res (py_slice_to MAX_RECENT_CONVERSIONS history);
  save history;;
  mret conversion_id.

(** [ConversionHistory.get_recent_conversions()]. *)
Definition get_recent_conversions : M store json :=
  history ← load;
  mret history.

(** [for conversion in history]: the items a value yields. *)
Definition py_iter (v : json) : res (list json) :=
  match v with
  | JArr l => Ok l
  | JObj m => Ok (JStr <$> (map_to_list m).*1)
  | JStr s => Ok ((λ a, JStr (String a EmptyString)) <$> list_ascii_of_string s)
  | JNull | JBool _ | JInt _ => Raise (TypeError "object is not iterable")
  end.

(** [conversion[key]] for a string [key]. *)
Definition py_getitem (conversion : json) (key : string) : res json :=
  match conversion with
  | JObj m =>
      match m !! key with
      | Some v => Ok v
      | None => Raise (KeyError key)
      end
  | JArr _ => Raise (TypeError "list indices must be integers or slices, not str")
  | JStr _ => Raise (TypeError "string indices must be integers, not 'str'")
  | JNull | JBool _ | JInt _ => Raise (TypeError "object is not subscriptable")
  end.

(** [v == s] for a string [s]. *)
Definition py_eq_str (v : json) (s : string) : bool :=
  match v with
  | JStr s' => String.eqb s' s
  | _ => false
  end.

(** The loop of [get_conversion]; [None] is Python's [None]. *)
Fixpoint scan (conversion_id : string) (items : list json)
    : res (option json) :=
  match items with
  | [] => Ok None
  | conversion :: rest =>
      match py_getitem conversion "id" with
      | Raise e => Raise e
      | Ok v =>
          if py_eq_str v conversion_id then Ok (Some conversion)
          else scan conversion_id rest
      end
  end.

(** [ConversionHistory.get_conversion(conversion_id)]. *)
Definition get_conversion (conversion_id : string) : M store (option json) :=
  history ← load;
  items ← lift_res (py_iter history);
  lift_res (scan conversion_id items).

(** A record that carries an identifier, and not [conversion_id]. *)
Definition has_other_id (conversion_id : string) (conversion : json) : bool :=
  match conversion with
  | JObj m =>
      match m !! "id" with
      | Some v => negb (py_eq_str v conversion_id)
      | None => false
      end
  | _ => false
  end.

(** One call of [add_conversion] as the application makes it. *)
Record request : Type := Request {
  req_pdf_path : string;
  req_output_path : string;
  req_entropy : entropy
}.

Definition record_of (r : request) : json :=
  new_conversion (req_pdf_path r) (req_output_path r) (req_entropy r).

Definition add (r : request) : M store string :=
  add_conversion (req_pdf_path r) (req_output_path r) (req_entropy r).

(** A sequence of calls, oldest first; it stops at the first that raises. *)
Fixpoint add_all (rs : list request) : M store (list string) :=
  match rs with
  | [] => mret []
  | r :: rest =>
      i ← add r;
      ids ← add_all rest;
      mret (i :: ids)
  end.

End history.
End History.

(** ** Objects with identity: [get_config] and the mapping it returns

    [self.config] is a reference to a dict object; [dict.copy()] allocates a
    new dict with the same items, the values of which are shared with the
    original. *)
Module Objects.

Definition loc : Type := positive.

Inductive pyval : Type :=
  | VNone
  | VBool (b : bool)
  | VInt (z : Z)
  | VStr (s : string)
  | VRef (l : loc).

Inductive pyobj : Type :=
  | ODict (m : gmap string pyval)
  | OList (l : list pyval).

Abbreviation heap := (gmap loc pyobj).

(** The instance: [self.config] refers to a dict. *)
Record instance : Type := Instance_ {
  self_config : loc
}.

(** [d.copy()] for the object at [l]. *)
Definition dict_copy (l : loc) : M heap pyval := λ h,
  match h !! l with
  | Some (ODict m) =>
      let l' := fresh (dom h) in
      (Ok (VRef l'), <[l' := ODict m]> h)
  | Some (OList xs) =>
      let l' := fresh (dom h) in
      (Ok (VRef l'), <[l' := OList xs]> h)
  | None => (Raise (AttributeError "object has no attribute 'copy'"), h)
  end.

(** [PdfToMarkdownConverter.get_config()]. *)
Definition get_config (self : instance) : M heap pyval :=
  dict_copy (self_config self).

(** What a caller can do to a mapping it holds. *)
Inductive mutation : Type :=
  | SetItem (k : string) (v : pyval)
  | DelItem (k : string)
  | Pop (k : string)
  | Update (other : gmap string pyval)
  | Clear.

(** [d[k] = v], [del d[k]], [d.pop(k, None)], [d.update(other)] and
    [d.clear()] on the dict at [l]. *)
Definition mutate (l : loc) (op : mutation) : M heap unit := λ h,
  match h !! l with
  | Some (ODict m) =>
      match op with
      | SetItem k v => (Ok tt, <[l := ODict (<[k := v]> m)]> h)
      | DelItem k =>
          match m !! k with
          | Some _ => (Ok tt, <[l := ODict (delete k m)]> h)
          | None => (Raise (KeyError k), h)
          end
      | Pop k => (Ok tt, <[l := ODict (delete k m)]> h)
      | Update other => (Ok tt, <[l := ODict (other ∪ m)]> h)
      | Clear => (Ok tt, <[l := ODict ∅]> h)
      end
  | _ => (Raise (TypeError "not a dict"), h)
  end.

(** A sequence of mutations of one mapping; a mutation that raises is
    caught by the caller, who goes on. *)
Fixpoint mutate_all (l : loc) (ops : list mutation) : M heap unit :=
  match ops with
  | [] => mret tt
  | op :: rest =>
      try_except (mutate l op) (λ _, Some (mret tt));;
      mutate_all l rest
  end.

(** Reading through a value: [v[k]] of a dict, [v[i]] of a list. *)
Inductive selector : Type :=
  | Key (k : string)
  | Index (i : nat).

Definition select (h : heap) (v : pyval) (s : selector) : option pyval :=
  match v with
  | VRef l =>
      match h !! l, s with
      | Some (ODict m), Key k => m !! k
      | Some (OList xs), Index i => xs !! i
      | _, _ => None
      end
  | _ => None
  end.

(** [v[s1][s2]...]: what is read along a path of selectors. *)
Fixpoint observe (h : heap) (v : pyval) (path : list selector)
    : option pyval :=
  match path with
  | [] => Some v
  | s :: rest =>
      match select h v s with
      | Some v' => observe h v' rest
      | None => None
      end
  end.

(** [v[k].append(x)] done through the mapping [v]: a mutation of a value
    stored in the mapping, not of the mapping. *)
Definition append_inside (v : pyval) (k : string) (x : pyval)
    : M heap unit := λ h,
  match select h v (Key k) with
  | Some (VRef l) =>
      match h !! l with
      | Some (OList xs) => (Ok tt, <[l := OList (xs ++ [x])]> h)
      | _ => (Raise (AttributeError "object has no attribute 'append'"), h)
      end
  | Some _ => (Raise (AttributeError "object has no attribute 'append'"), h)
  | None => (Raise (KeyError k), h)
  end.

End Objects.

(** ** Stand-ins for the external collaborators

    A codec whose texts are parse outcomes, and a conversion library that
    copies the source into [base_name.md]. *)
Module Doubles.
Import Os Converter.

Definition outcome_codec : JsonCodec := {|
  text := option json;
  json_loads := λ t,
    match t with
    | Some v => Ok v
    | None => Raise (JSONDecodeError "Expecting value: line 1 column 1 (char 0)")
    end;
  json_dumps := Some;
  key_order := λ _ m, (map_to_list m).*1;
  json_loads_dumps := λ v, eq_refl;
  key_order_keys := λ _ m, reflexivity _
|}.

(** A codec whose texts are all the outcomes of reading: a file can also
    hold bytes on which reading raises an exception other than
    [JSONDecodeError]. *)
Definition reading_codec : JsonCodec := {|
  text := res json;
  json_loads := λ t, t;
  json_dumps := Ok;
  key_order := λ _ m, (map_to_list m).*1;
  json_loads_dumps := λ v, eq_refl;
  key_order_keys := λ _ m, reflexivity _
|}.

(** History files for [reading_codec]: one whose bytes are not UTF-8 text,
    one that nests lists a thousand deep, one that holds the JSON object
    [{}]. *)
Definition undecodable_log : @History.store reading_codec :=
  Some (Raise (UnicodeDecodeError
    "'utf-8' codec can't decode byte 0xff in position 0: invalid start byte")).
Definition deep_log : @History.store reading_codec :=
  Some (Raise (RecursionError "maximum recursion depth exceeded")).
Definition object_log : @History.store reading_codec :=
  Some (Ok (JObj ∅)).

#[local] Existing Instance outcome_codec.

(** [save_output] of the stand-in: it writes [base.md] into [dir] and
    reports an error unless the document is then in the directory. *)
Definition copying_save_output (r : option json) (dir base : string)
    : M world unit := λ w,
  let p := PosixPath.join dir (base +:+ "." +:+ "md") in
  match write_text p r w with
  | (Ok tt, w') =>
      if (path_isdir w' dir && path_isfile w' p)%bool then (Ok tt, w')
      else (Raise (ExternalError "output was not written"), w')
  | (Raise e, w') => (Raise e, w')
  end.

Definition copying_marker : Marker := {|
  pdf_converter := gmap string json;
  rendered := option json;
  new_pdf_converter := λ cfg, mret cfg;
  call_converter := λ _ pdf_path, read_text pdf_path;
  save_output := copying_save_output;
  extension := λ _, "md"
|}.

#[local] Existing Instance copying_marker.

(** A machine: the upload [report.pdf] in the current directory [/work],
    an output root [/out], a directory [/data], and two configuration files,
    one that parses and one that does not. *)
Definition machine : world := {|
  files := {[ ["work"] := Dir;
              ["work"; "report.pdf"] := File (Some (JStr "%PDF-1.7"));
              ["out"] := Dir;
              ["data"] := Dir;
              ["etc"] := Dir;
              ["etc"; "override.json"] :=
                File (Some (JObj {[ "ollama_model" := JStr "llama3:8b" ]}));
              ["etc"; "broken.json"] := File None ]};
  cwd := "/work"
|}.


Definition fresh_converter : PdfToMarkdownConverter :=
  Self default_config None.

Definition request_of (id : string) : History.request :=
  History.Request "/srv/uploads/report.pdf" "/srv/output/report"
    (History.Entropy id "2025-03-01T10:00:00").

Definition eleven_requests : list History.request :=
  request_of <$> ["c00"; "c01"; "c02"; "c03"; "c04"; "c05";
                  "c06"; "c07"; "c08"; "c09"; "c10"].

(** A history file that holds a log of one record. *)
Definition one_record_log : @History.store outcome_codec :=
  Some (Some (JArr [History.record_of (request_of "c00")])).

(** A heap in which [self.config] is the dict at 1, one value of which is
    the list at 2. *)
Definition config_heap : Objects.heap :=
  {[ 1%positive := Objects.ODict
                     {[ "use_llm" := Objects.VBool true;
                        "languages" := Objects.VRef 2%positive ]};
     2%positive := Objects.OList [Objects.VStr "en"] ]}.

End Doubles.

(** ** More of the file system *)
Module OsMore.
Import Os.
Section os_more.
Context `{JsonCodec}.

(** [with open(p, 'w') as f: json.dump(v, f, indent=4)]: the root directory
    cannot be opened for writing. *)
Definition json_dump (p : string) (v : json) : M world unit := λ w,
  match resolve w p with
  | [] => (Raise (IsADirectoryError p), w)
  | _ => write_text p (json_dumps v) w
  end.

(** [os.makedirs(name)], [exist_ok] being [False]. *)
Definition os_makedirs_new (name : string) : M world unit := λ w,
  if path_exists w name then (Raise (FileExistsError name), w)
  else os_makedirs name w.

(** [os.remove(p)]. *)
Definition os_remove (p : string) : M world unit := λ w,
  match stat w p with
  | Some (File _) =>
      (Ok tt, World (delete (resolve w p) (files w)) (cwd w))
  | Some Dir => (Raise (IsADirectoryError p), w)
  | None => (Raise (FileNotFoundError p), w)
  end.

(** The truth value of a string argument that may be [None]. *)
Definition truthy (s : option string) : bool :=
  match s with
  | Some s => negb (String.eqb s "")
  | None => false
  end.

End os_more.
End OsMore.

(** ** src/PdfToMarkdownConverter.py: [create_default_config] and [main] *)
Module Cli.
Import Os OsMore Converter.
Section cli.
Context `{Marker}.

(** The dict [default_config] of [create_default_config]. *)
Definition default_config_written : gmap string json :=
  {[ "output_format" := JStr "markdown";
     "use_llm" := JBool true;
     "llm_service" := JStr "marker.services.ollama.OllamaService";
     "ollama_base_url" := JStr "http://localhost:11434";
     "ollama_model" := JStr "qwen2.5:14b" ]}.

(** [create_default_config(config_path)]. *)
Definition create_default_config (config_path : string) : M world unit :=
  let default_config := default_config_written in
  json_dump config_path (JObj default_config).

(** What [parser.parse_args()] returns. *)
Record args : Type := Args {
  pdf : string;
  output : option string;
  config_arg : option string;
  create_config : option string
}.

(** A method call on a local instance: the instance is dropped once the
    call is over. *)
Definition on_instance {A} (self : PdfToMarkdownConverter) (c : M state A)
    : M world A := λ w,
  let '(r, (_, w')) := c (self, w) in (r, w').

(** [main()] after [parse_args]; the result is the exit status. *)
Definition main (a : args) : M world Z :=
  if truthy (create_config a) then
    try_except
      (create_default_config (default "" (create_config a));;
       mret 0%Z)
      (λ _, Some (mret 1%Z))
  else
    found ← os_path_exists (pdf a);
    if negb found then mret 1%Z
    else
      created ←
        (if truthy (output a) then
           there ← os_path_exists (default "" (output a));
           if negb there then
             try_except
               (os_makedirs (default "" (output a));; mret true)
               (λ _, Some (mret false))
           else mret true
         else mret true);
      if negb created then mret 1%Z
      else
        try_except
          (converter ← __init__ (config_arg a);
           on_instance converter (convert_pdf (pdf a) (output a));;
           mret 0%Z)
          (λ e, match e with
                | FileNotFoundError _ => Some (mret 1%Z)
                | JSONDecodeError _ => Some (mret 1%Z)
                | _ => Some (mret 1%Z)
                end).

End cli.
End Cli.

(** ** src/PdfToMarkdown.py *)
Module Legacy.
Import Os OsMore Converter.

(** How a call ends: it returns, it raises an exception that
    [except Exception] catches, or it raises [SystemExit], which
    [except Exception] does not catch. *)
Inductive outcome (A : Type) : Type :=
  | Returns (a : A)
  | Raises (e : exn)
  | Exits (status : string).
Arguments Returns {A} a.
Arguments Raises {A} e.
Arguments Exits {A} status.

Definition outcome_of {A} (r : res A) : outcome A :=
  match r with
  | Ok a => Returns a
  | Raise e => Raises e
  end.

Section legacy.
Context `{Marker}.

(** The dict [ollama_config] of [parse_pdf]. *)
Definition ollama_config : gmap string json :=
  {[ "output_format" := JStr "markdown";
     "use_llm" := JBool true;
     "llm_service" := JStr "marker.services.ollama.OllamaService";
     "ollama_base_url" := JStr "http://localhost:11434";
     "ollama_model" := JStr "qwen2.5:14b" ]}.

(** [parse_pdf] once its arguments are checked. *)
Definition parse_checked (pdf_path : string) (output_path : option string)
    : M world unit :=
  output_path ←
    (if truthy output_path then
       there ← os_path_exists (default "" output_path);
       if negb there then os_getcwd else mret (default "" output_path)
     else os_getcwd);
  let pdf_name := PosixPath.basename pdf_path in
  let fname := (PosixPath.splitext pdf_name).1 in
  let output_path := PosixPath.join output_path fname in
  os_makedirs output_path;;
  converter ← new_pdf_converter ollama_config;
  rendered ← call_converter converter pdf_path;
  save_output rendered output_path fname.

(** [parse_pdf(pdf_path, output_path)]. *)
Definition parse_pdf (pdf_path output_path : option string)
    : world → outcome unit * world := λ w,
  if (negb (truthy pdf_path)
      || negb (path_exists w (default "" pdf_path)))%bool
  then (Exits "no or faulty pdf file provided", w)
  else
    let '(r, w') := parse_checked (default "" pdf_path) output_path w in
    (outcome_of r, w').

Record args : Type := Args {
  pdf : string;
  output : option string
}.

(** [main()] after [parse_args]. *)
Definition main (a : args) : world → outcome Z * world := λ w,
  if negb (path_exists w (pdf a)) then (Returns 1%Z, w)
  else
    let '(created, w1) :=
      (if (truthy (output a)
           && negb (path_exists w (default "" (output a))))%bool
       then
         match os_makedirs_new (default "" (output a)) w with
         | (Ok _, w1) => (true, w1)
         | (Raise _, w1) => (false, w1)
         end
       else (true, w)) in
    if negb created then (Returns 1%Z, w1)
    else
      match parse_pdf (Some (pdf a)) (output a) w1 with
      | (Returns _, w2) => (Returns 0%Z, w2)
      | (Raises _, w2) => (Returns 1%Z, w2)
      | (Exits status, w2) => (Exits status, w2)
      end.

End legacy.
End Legacy.

(** ** src/app.py: the routes *)
Module Web.
Import Os OsMore Converter History.

(** [c.lower()] for an ASCII character, and [s.lower()]. *)
Definition lower_ascii (a : ascii) : ascii :=
  let n := nat_of_ascii a in
  if ((65 <=? n) && (n <=? 90))%nat then ascii_of_nat (n + 32) else a.

Fixpoint lower (s : string) : string :=
  match s with
  | EmptyString => EmptyString
  | String a r => String (lower_ascii a) (lower r)
  end.

(** [c in s]. *)
Fixpoint contains (c : ascii) (s : string) : bool :=
  match s with
  | EmptyString => false
  | String a r => (Ascii.eqb a c || contains c r)%bool
  end.

(** The two parts of [s] around the last [c], when [c] occurs in [s]. *)
Fixpoint split_last (c : ascii) (s : string) : option (string * string) :=
  match s with
  | EmptyString => None
  | String a r =>
      match split_last c r with
      | Some (h, t) => Some (String a h, t)
      | None => if Ascii.eqb a c then Some (EmptyString, r) else None
      end
  end.

(** [s.rsplit(c, 1)]. *)
Definition rsplit1 (c : ascii) (s : string) : list string :=
  match split_last c s with
  | Some (h, t) => [h; t]
  | None => [s]
  end.

Definition ALLOWED_EXTENSIONS : list string := ["pdf"].

(** [allowed_file(filename)]. *)
Definition allowed_file (filename : string) : bool :=
  (contains "." filename
   && match rsplit1 "." filename !! 1%nat with
      | Some ext => bool_decide (lower ext ∈ ALLOWED_EXTENSIONS)
      | None => false
      end)%bool.

(** [s.rstrip('/')]. *)
Fixpoint rstrip_sep (s : string) : string :=
  match s with
  | EmptyString => EmptyString
  | String a r =>
      match rstrip_sep r with
      | EmptyString =>
          if Ascii.eqb a PosixPath.sep then EmptyString
          else String a EmptyString
      | r' => String a r'
      end
  end.

(** [os.path.dirname(p)]: the head [p[:i]] up to the last separator,
    stripped of its trailing separators unless it consists of separators
    only. *)
Definition dirname (p : string) : string :=
  let head := PosixPath.upto (PosixPath.rfind PosixPath.sep p + 1) p in
  match rstrip_sep head with
  | EmptyString => head
  | stripped => stripped
  end.

Section web.
Context `{Marker}.

(** The process: the history file, which is kept apart from the rest of the
    file system, the file system, and the messages flashed so far, oldest
    first. *)
Record app : Type := App {
  history : store;
  disk : world;
  flashed : list (string * string)
}.

Definition in_history {A} (c : M store A) : M app A := λ s,
  let '(r, h) := c (history s) in (r, App h (disk s) (flashed s)).
Definition in_disk {A} (c : M world A) : M app A := λ s,
  let '(r, w) := c (disk s) in (r, App (history s) w (flashed s)).
Definition from_res {A} (r : res A) : M app A := λ s, (r, s).

(** [flash(message, category)]. *)
Definition flash (message category : string) : M app unit := λ s,
  (Ok tt, App (history s) (disk s) (flashed s ++ [(message, category)])).

(** What a route returns: [redirect(url_for(endpoint, **query))],
    [render_template('preview.html', ...)] or
    [send_from_directory(..., as_attachment=True)]. *)
Inductive response : Type :=
  | Redirect (endpoint : string) (query : list (string * string))
  | PreviewPage (markdown_content : string) (filename : json)
                (conversion_id : string)
  | SendFromDirectory (directory path download_name : string).

(** The truth value of a value. *)
Definition truthy_json (v : json) : bool :=
  match v with
  | JNull => false
  | JBool b => b
  | JInt z => negb (z =? 0)%Z
  | JStr s => negb (String.eqb s "")
  | JArr l => match l with [] => false | _ => true end
  | JObj m => match map_to_list m with [] => false | _ => true end
  end.

(** [not conversion] for what [get_conversion] returned. *)
Definition not_conversion (conversion : option json) : bool :=
  match conversion with
  | None => true
  | Some v => negb (truthy_json v)
  end.

(** A value given to [os.path.splitext] or [os.path.join] must be a
    string. *)
Definition as_path (v : json) : res string :=
  match v with
  | JStr s => Ok s
  | _ => Raise (TypeError "expected str, bytes or os.PathLike object")
  end.

Definition item_path (conversion : json) (key : string) : M app string :=
  v ← from_res (py_getitem conversion key);
  from_res (as_path v).

(** [download_file(conversion_id, file_type)]. *)
Definition download_file (conversion_id file_type : string)
    : M app response :=
  conversion ← in_history (get_conversion conversion_id);
  if not_conversion conversion then
    flash "Conversion not found" "error";;
    mret (Redirect "index" [])
  else
    let conversion := default JNull conversion in
    name ← item_path conversion "filename";
    let filename := (PosixPath.splitext name).1 in
    if String.eqb file_type "md" then
      output_path ← item_path conversion "output_path";
      let file_path := PosixPath.join output_path (filename +:+ ".md") in
      let download_name := filename +:+ ".md" in
      there ← in_disk (os_path_exists file_path);
      if negb there then
        flash "File not found" "error";;
        mret (Redirect "index" [])
      else
        mret (SendFromDirectory (dirname file_path)
                (PosixPath.basename file_path) download_name)
    else
      flash "Invalid file type" "error";;
      mret (Redirect "index" []).

(** [markdown.markdown(text, extensions=['tables', 'fenced_code'])], a
    function of the markdown library. *)
Variable markdown_html : text → res string.

(** [preview(conversion_id)]. *)
Definition preview (conversion_id : string) : M app response :=
  conversion ← in_history (get_conversion conversion_id);
  if not_conversion conversion then
    flash "Conversion not found" "error";;
    mret (Redirect "index" [])
  else
    let conversion := default JNull conversion in
    name ← item_path conversion "filename";
    let filename := (PosixPath.splitext name).1 in
    output_path ← item_path conversion "output_path";
    let markdown_path := PosixPath.join output_path (filename +:+ ".md") in
    there ← in_disk (os_path_exists markdown_path);
    if negb there then
      flash "Markdown file not found" "error";;
      mret (Redirect "index" [])
    else
      try_except
        (markdown_content ← in_disk (read_text markdown_path);
         html_content ← from_res (markdown_html markdown_content);
         name ← from_res (py_getitem conversion "filename");
         mret (PreviewPage html_content name conversion_id))
        (λ e, Some (flash ("Error loading preview: " +:+ str_of_exn e)
                      "error";;
                    mret (Redirect "index" []))).

End web.
End Web.

(** ** src/app.py: the upload route *)
Module Upload.
Import Os OsMore Converter History Cli Web.
Section upload.
Context `{Marker}.

(** [werkzeug.utils.secure_filename], and the folders of [Config], joined
    from the current directory when the module is loaded. *)
Variable secure_filename : string → string.
Variable UPLOAD_FOLDER OUTPUT_FOLDER : string.

(** The part of the request named [file]: a [FileStorage]. *)
Record upload : Type := FileStorage {
  upload_filename : string;
  upload_content : text
}.

(** The data of a [ConversionForm]. *)
Record form_data : Type := FormData {
  output_dir : string;
  llm_model : string;
  ollama_base_url : string;
  output_format : string
}.

(** A POST request: the file part when there is one; the data of the form
    when [validate_on_submit()] holds and [form.errors] otherwise; and what
    [uuid.uuid4()], for the temporary configuration, and [add_conversion]
    draw. *)
Record http_request : Type := HttpRequest {
  file_part : option upload;
  form : form_data + list (string * list string);
  config_uuid : string;
  history_entropy : entropy
}.

(** [file.save(dst)]. *)
Definition file_save (dst : string) (content : text) : M world unit := λ w,
  match resolve w dst with
  | [] => (Raise (IsADirectoryError dst), w)
  | _ => write_text dst content w
  end.

(** The messages of [for field, errors in form.errors.items(): for error in
    errors: flash(f"{field}: {error}", 'error')]. *)
Definition form_error_messages (errors : list (string * list string))
    : list string :=
  errors ≫= λ '(field, errs), (λ error, field +:+ ": " +:+ error) <$> errs.

Fixpoint flash_errors (messages : list string) : M app unit :=
  match messages with
  | [] => mret tt
  | m :: rest => flash m "error";; flash_errors rest
  end.

(** The configuration the route writes for the converter. *)
Definition web_config (data : form_data) : gmap string json :=
  {[ "output_format" := JStr (output_format data);
     "use_llm" := JBool true;
     "llm_service" := JStr "marker.services.ollama.OllamaService";
     "ollama_base_url" := JStr (ollama_base_url data);
     "ollama_model" := JStr (llm_model data) ]}.

(** The [try] block of the route. *)
Definition convert_and_record (req : http_request)
    (pdf_path output_dir config_path : string) : M app response :=
  converter ← in_disk (__init__ (Some config_path));
  output_path ←
    in_disk (on_instance converter (convert_pdf pdf_path (Some output_dir)));
  conversion_id ←
    in_history (add_conversion pdf_path output_path (history_entropy req));
  there ← in_disk (os_path_exists config_path);
  (if (there : bool) then in_disk (os_remove config_path) else mret tt);;
  flash "PDF converted successfully!" "success";;
  mret (Redirect "index" [("success", "PDF converted successfully!")]).

(** The route [convert_pdf()] of the application, for a POST request. *)
Definition convert_route (req : http_request) : M app response :=
  match file_part req with
  | None =>
      flash "No file part" "error";;
      mret (Redirect "index" [])
  | Some file =>
      if String.eqb (upload_filename file) "" then
        flash "No selected file" "error";;
        mret (Redirect "index" [])
      else if (negb (String.eqb (upload_filename file) "")
               && allowed_file (upload_filename file))%bool then
        let filename := secure_filename (upload_filename file) in
        let pdf_path := PosixPath.join UPLOAD_FOLDER filename in
        in_disk (file_save pdf_path (upload_content file));;
        match form req with
        | inl data =>
            let output_dir :=
              if String.eqb (output_dir data) "" then OUTPUT_FOLDER
              else output_dir data in
            let config := web_config data in
            let config_path :=
              PosixPath.join UPLOAD_FOLDER (config_uuid req +:+ ".json") in
            in_disk (json_dump config_path (JObj config));;
            try_except
              (convert_and_record req pdf_path output_dir config_path)
              (λ e, Some
                 (flash ("Error during conversion: " +:+ str_of_exn e)
                    "error";;
                  mret (Redirect "index"
                          [("error", "Error: " +:+ str_of_exn e)])))
        | inr errors =>
            flash_errors (form_error_messages errors);;
            mret (Redirect "index" [])
        end
      else
        flash "Invalid file type. Please upload a PDF file." "error";;
        mret (Redirect "index" [])
  end.

End upload.
End Upload.

(** ** Inputs for the further properties *)
Module Scenarios.
Import Os OsMore Converter History Web Upload Doubles.
#[local] Existing Instance outcome_codec.
#[local] Existing Instance copying_marker.

(** The server: the current directory [/work] with the folders of the
    application, a configuration file that holds [null], and one that holds
    the list [[[1, 2], {"a": 1, "b": 2}, ["ollama_model", "llama3:8b"]]]. *)
Definition server : world := {|
  files := {[ ["work"] := Dir;
              ["work"; "uploads"] := Dir;
              ["work"; "output"] := Dir;
              ["etc"] := Dir;
              ["etc"; "null.json"] := File (Some JNull);
              ["etc"; "pairs.json"] :=
                File (Some (JArr [JArr [JInt 1; JInt 2];
                                  JObj {[ "a" := JInt 1; "b" := JInt 2 ]};
                                  JArr [JStr "ollama_model";
                                        JStr "llama3:8b"]])) ]};
  cwd := "/work"
|}.

(** A log of two records that carry the same identifier, around a record
    without [id]. *)
Definition twin : json :=
  JObj {[ "id" := JStr "c01"; "filename" := JStr "new.pdf" ]}.
Definition nameless : json :=
  JObj {[ "filename" := JStr "lost.pdf" ]}.
Definition older_twin : json :=
  JObj {[ "id" := JStr "c01"; "filename" := JStr "old.pdf" ]}.

Definition twin_log : store := Some (Some (JArr [twin; nameless; older_twin])).
Definition nameless_log : store := Some (Some (JArr [nameless; twin])).
Definition dict_log : store := Some (Some (JObj ∅)).
Definition unreadable_log : store := Some (@None json).

(** [markdown.markdown] of the stand-in: the text as it is. *)
Definition plain_markdown : text → res string := λ t : option json,
  match t with
  | Some (JStr s) => Ok s
  | _ => Raise (ValueError "not a text")
  end.

(** A valid upload of [report.pdf] with an empty output directory field,
    the same upload with a form that does not validate, and an upload of an
    executable. *)
Definition valid_form : form_data :=
  FormData "" "llama3:8b" "http://localhost:11434" "markdown".

Definition report_upload : upload :=
  FileStorage "report.pdf" (Some (JStr "%PDF-1.7")).

Definition upload_request : http_request :=
  HttpRequest (Some report_upload)
    (inl valid_form) "tmp-1" (Entropy "c42" "2025-03-01T10:00:00").

Definition invalid_form_request : http_request :=
  HttpRequest (Some report_upload)
    (inr [("llm_model", ["Not a valid choice."])])
    "tmp-2" (Entropy "c43" "2025-03-01T10:05:00").

Definition exe_request : http_request :=
  HttpRequest (Some (FileStorage "setup.exe" (Some (JStr "MZ"))))
    (inl valid_form) "tmp-3" (Entropy "c44" "2025-03-01T10:10:00").

(** [secure_filename] of the stand-in: names without separators are left
    as they are. *)
Definition keep_name (name : string) : string := name.

Definition fresh_app (w : world) : app := App None w [].

(** Whether a call returned, and what it returned. *)
Definition returned {A} (r : res A) : bool :=
  match r with Ok _ => true | Raise _ => false end.
Definition value_or {A} (d : A) (r : res A) : A :=
  match r with Ok a => a | Raise _ => d end.

(** An instance whose converter is built. *)
Definition ready_converter : PdfToMarkdownConverter :=
  Self default_config (Some (default_config : pdf_converter)).

End Scenarios.

(** * Properties *)

(** Unfolds the monad operations so that a computation applied to a state
    reduces. *)
Ltac py_unfold :=
  unfold mbind, mret, M_bind, M_ret, raise, try_except in *.

(** ** The conversion history *)
Section history_facts.
Context `{JsonCodec}.
Import History.

Lemma load_absent : load None = (Ok (JArr []), None).
Proof. reflexivity. Qed.

Lemma load_parsed t v :
  json_loads t = Ok v → load (Some t) = (Ok v, Some t).
Proof.
  intros Hv. unfold load, history_file_exists, json_load_history.
  py_unfold. by rewrite Hv.
Qed.

Lemma load_unparsable t msg :
  json_loads t = Raise (JSONDecodeError msg) →
  load (Some t) = (Ok (JArr []), Some t).
Proof.
  intros Hv. unfold load, history_file_exists, json_load_history.
  py_unfold. by rewrite Hv.
Qed.

(** An exception of the reading other than [JSONDecodeError] is not
    handled. *)
Lemma load_passes_on t e :
  json_loads t = Raise e → (∀ msg, e ≠ JSONDecodeError msg) →
  load (Some t) = (Raise e, Some t).
Proof.
  intros Hv He. unfold load, history_file_exists, json_load_history.
  py_unfold. rewrite Hv. destruct e; try done. by destruct (He msg).
Qed.

(** [load] leaves the history file as it is. *)
Lemma load_frame st r st' : load st = (r, st') → st' = st.
Proof.
  unfold load, history_file_exists, json_load_history. py_unfold.
  destruct st as [t|]; [|by intros [= _ <-]].
  destruct (json_loads t) as [v|e]; [by intros [= _ <-]|].
  destruct e; by intros [= _ <-].
Qed.

Lemma load_after_save v st :
  ∃ st', save v st = (Ok tt, st') ∧ load st' = (Ok v, st').
Proof.
  exists (Some (json_dumps v)). split; [done|].
  apply load_parsed, json_loads_dumps.
Qed.

Lemma add_on_list r st l :
  load st = (Ok (JArr l), st) →
  ∃ st', add r st = (Ok (uuid4 (req_entropy r)), st')
         ∧ load st' = (Ok (JArr (take 10 (record_of r :: l))), st').
Proof.
  intros Hl. eexists. split.
  - unfold add, add_conversion. py_unfold. rewrite Hl. simpl.
    unfold lift_res, save, json_dump_history. simpl. reflexivity.
  - apply load_parsed, json_loads_dumps.
Qed.

Lemma take_app_take {A} n (a b : list A) :
  take n (a ++ take n b) = take n (a ++ b).
Proof.
  rewrite !take_app. f_equal. rewrite take_take. f_equal. lia.
Qed.

(** What the log holds after the calls [rs] on a log that held [l]. *)
Lemma add_all_on_list rs : ∀ st l,
  load st = (Ok (JArr l), st) →
  ∃ st', add_all rs st = (Ok ((λ r, uuid4 (req_entropy r)) <$> rs), st')
         ∧ load st' =
           (Ok (JArr (match rs with
                      | [] => l
                      | _ => take 10 (reverse (record_of <$> rs) ++ l)
                      end)), st').
Proof.
  induction rs as [|r rs IH]; intros st l Hl.
  - exists st. by split.
  - destruct (add_on_list r st l Hl) as (st1 & Hadd & Hl1).
    destruct (IH st1 _ Hl1) as (st2 & Hall & Hl2).
    exists st2. split.
    + simpl. py_unfold. by rewrite Hadd, Hall.
    + rewrite Hl2. do 3 f_equal. destruct rs as [|r' rs].
      * reflexivity.
      * rewrite take_app_take. f_equal.
        rewrite (fmap_cons _ r), (reverse_cons _ (record_of r)).
        by rewrite <- app_assoc.
Qed.


Lemma scan_miss ident l :
  Forall (λ c, has_other_id ident c = true) l → scan ident l = Ok None.
Proof.
  induction 1 as [|c l Hc _ IH]; [done|].
  simpl. destruct c as [| | | | |m]; try done. simpl in *.
  destruct (m !! "id") as [v|]; [|done].
  destruct (py_eq_str v ident); [done|]. apply IH.
Qed.

Lemma get_conversion_miss ident st l :
  load st = (Ok (JArr l), st) →
  Forall (λ c, has_other_id ident c = true) l →
  get_conversion ident st = (Ok None, st).
Proof.
  intros Hl Hall. unfold get_conversion. py_unfold. rewrite Hl. simpl.
  unfold lift_res. by rewrite scan_miss.
Qed.

Lemma record_has_other_id ident r :
  uuid4 (req_entropy r) ≠ ident → has_other_id ident (record_of r) = true.
Proof.
  intros Hne. unfold has_other_id, record_of, new_conversion.
  rewrite lookup_insert_eq. simpl.
  apply negb_true_iff, String.eqb_neq, Hne.
Qed.

(** C1: after more than 10 calls of [add_conversion], on a log of at most
    10 records, every call has returned its identifier, [load] returns
    exactly 10 records, which are the 10 added last, the newest first; and
    after any number of the calls the persisted log has at most 10
    records. *)
Theorem add_conversion_keeps_ten_newest st l rs :
  load st = (Ok (JArr l), st) →
  length l ≤ MAX_RECENT_CONVERSIONS →
  MAX_RECENT_CONVERSIONS < length rs →
  (∃ st' kept,
      add_all rs st = (Ok ((λ r, uuid4 (req_entropy r)) <$> rs), st')
      ∧ load st' = (Ok (JArr kept), st')
      ∧ length kept = MAX_RECENT_CONVERSIONS
      ∧ kept = take MAX_RECENT_CONVERSIONS (reverse (record_of <$> rs))
      ∧ kept = reverse (record_of <$>
                 drop (length rs - MAX_RECENT_CONVERSIONS) rs))
  ∧ (∀ k, ∃ st' held,
      (add_all (take k rs) st).2 = st'
      ∧ load st' = (Ok (JArr held), st')
      ∧ length held ≤ MAX_RECENT_CONVERSIONS).
Proof.
  unfold MAX_RECENT_CONVERSIONS. intros Hl Hlen Hrs. split.
  - destruct (add_all_on_list rs st l Hl) as (st' & Hall & Hl').
    destruct rs as [|r rs]; [simpl in Hrs; lia|].
    set (recs := record_of <$> r :: rs) in *.
    assert (length recs = length (r :: rs)) as Hrecs
      by apply length_fmap.
    exists st', (take 10 (reverse recs)). split; [done|].
    split; [|split; [|split]].
    + rewrite Hl'. do 3 f_equal. apply take_app_le.
      rewrite length_reverse. lia.
    + rewrite length_take_le; [done|]. rewrite length_reverse. lia.
    + done.
    + rewrite take_reverse. subst recs. rewrite fmap_drop.
      by rewrite Hrecs.
  - intros k.
    destruct (add_all_on_list (take k rs) st l Hl) as (st' & Hall & Hl').
    eexists st', _. split; [by rewrite Hall|]. split; [exact Hl'|].
    destruct (take k rs); [done|]. rewrite length_take. lia.
Qed.

(** C5, as amended: [load] returns the empty log when the history file is
    absent and when reading it raises [JSONDecodeError]; when the content
    decodes, [load] returns the decoded value as it is, a list or not; and
    any other exception of the reading is passed on to the caller.  So
    [load] returns whenever the file is absent, decodes, or fails to decode
    with a [JSONDecodeError], and the file is never changed. *)
Theorem load_outcomes st :
  (st = None → load st = (Ok (JArr []), st))
  ∧ (∀ t msg, st = Some t → json_loads t = Raise (JSONDecodeError msg) →
       load st = (Ok (JArr []), st))
  ∧ (∀ t v, st = Some t → json_loads t = Ok v → load st = (Ok v, st))
  ∧ (∀ t e, st = Some t → json_loads t = Raise e →
       (∀ msg, e ≠ JSONDecodeError msg) → load st = (Raise e, st))
  ∧ ((∀ t e, st = Some t → json_loads t = Raise e →
        ∃ msg, e = JSONDecodeError msg) →
     ∃ v, load st = (Ok v, st)).
Proof.
  split; [intros ->; apply load_absent|].
  split; [intros t msg ->; apply load_unparsable|].
  split; [intros t v ->; apply load_parsed|].
  split; [intros t e ->; apply load_passes_on|].
  intros Hdec. destruct st as [t|]; [|by eexists].
  destruct (json_loads t) as [v|e] eqn:Ht.
  - exists v. by apply load_parsed.
  - destruct (Hdec t e eq_refl Ht) as [msg ->].
    exists (JArr []). by eapply load_unparsable.
Qed.

(** C7: saving what [load] returned and loading again returns the same
    value. *)
Theorem save_load_roundtrip st v :
  load st = (Ok v, st) →
  ∃ st', save v st = (Ok tt, st') ∧ load st' = (Ok v, st').
Proof. intros _. apply load_after_save. Qed.

(** C8: on a log of records none of which carries the identifier, and
    after any calls of [add_conversion] none of which drew it,
    [get_conversion] returns [None] and does not raise. *)
Theorem get_conversion_unknown_id ident st l rs :
  load st = (Ok (JArr l), st) →
  Forall (λ c, has_other_id ident c = true) l →
  Forall (λ r, uuid4 (req_entropy r) ≠ ident) rs →
  ∃ ids st', add_all rs st = (Ok ids, st')
             ∧ get_conversion ident st' = (Ok None, st').
Proof.
  intros Hl Hold Hnew.
  destruct (add_all_on_list rs st l Hl) as (st' & Hall & Hl').
  eexists _, st'. split; [exact Hall|].
  eapply get_conversion_miss; [exact Hl'|].
  destruct rs as [|r rs]; [done|].
  apply Forall_take, Forall_app. split; [|done].
  apply Forall_reverse, Forall_fmap.
  eapply Forall_impl; [exact Hnew|]. intros r'. apply record_has_other_id.
Qed.

(** C9: the record [add_conversion] builds has [has_preview] set to [True]
    whatever its arguments, and that record is the first of the log once
    the call has returned; nothing but the history file is read. *)
Theorem add_conversion_sets_has_preview pdf_path output_path e st :
  (∃ m, new_conversion pdf_path output_path e = JObj m
        ∧ m !! "has_preview" = Some (JBool true))
  ∧ (∀ i st', add_conversion pdf_path output_path e st = (Ok i, st') →
       i = uuid4 e
       ∧ ∃ rest, load st' =
           (Ok (JArr (new_conversion pdf_path output_path e :: rest)), st')).
Proof.
  split; [by eexists|].
  intros i st'. unfold add_conversion. py_unfold.
  destruct (load st) as [[v|e0] st1]; [|by intros [=]].
  destruct v as [| | | |l|]; simpl; try (intros [=]; done).
  unfold lift_res, save, json_dump_history. intros [= <- <-].
  split; [done|]. eexists.
  apply load_parsed. rewrite json_loads_dumps. reflexivity.
Qed.

End history_facts.

(** ** Path names *)
Section path_facts.
Import PosixPath.




















End path_facts.

(** ** The file system *)
Section os_facts.
Context `{JsonCodec}.
Import Os.

Lemma ensure_dir_stuck name target e ks : ∀ m,
  foldl (ensure_dir name target) (Some e, m) ks = (Some e, m).
Proof. induction ks as [|k ks IH]; intros m; [done|]. apply IH. Qed.

Lemma ensure_dir_done name target ks : ∀ m m',
  foldl (ensure_dir name target) (None, m) ks = (None, m') →
  (∀ k, k ∈ ks → m' !! k = Some Dir)
  ∧ (∀ k, m !! k = Some Dir → m' !! k = Some Dir).
Proof.
  induction ks as [|k0 ks IH]; intros m m' Hf.
  - simpl in Hf. injection Hf as <-. split; [|done].
    intros k Hk. by apply elem_of_nil in Hk.
  - simpl in Hf. destruct (m !! k0) as [[c|]|] eqn:Hk0.
    + by rewrite ensure_dir_stuck in Hf.
    + destruct (IH _ _ Hf) as [Hin Hkeep]. split; [|done].
      intros k [->|Hk]%elem_of_cons; auto.
    + destruct (IH _ _ Hf) as [Hin Hkeep]. split.
      * intros k [->|Hk]%elem_of_cons; [|auto].
        apply Hkeep, lookup_insert_eq.
      * intros k Hk. apply Hkeep.
        destruct (decide (k0 = k)) as [->|Hne]; [congruence|].
        by rewrite lookup_insert_ne.
Qed.


Lemma chain_last rest : ∀ pre,
  rest ≠ [] → (pre ++ rest)%list ∈ chain pre rest.
Proof.
  induction rest as [|c rest IH]; intros pre Hne; [done|].
  simpl. destruct rest as [|c' rest].
  - apply elem_of_cons. by left.
  - apply elem_of_cons. right.
    rewrite (cons_middle c pre), app_assoc. by apply IH.
Qed.

Lemma stat_dir_key w p :
  String.eqb p "" = false →
  (resolve w p = [] ∨ files w !! resolve w p = Some Dir) →
  path_isdir w p = true.
Proof.
  intros Hp Hk. unfold path_isdir, stat. rewrite Hp.
  destruct (resolve w p) as [|c key] eqn:Hr; [done|].
  destruct Hk as [|Hk]; [done|]. by rewrite Hk.
Qed.


(** After [os.makedirs(name, exist_ok=True)] has returned, [name] is a
    directory. *)
Lemma makedirs_creates name w w1 :
  os_makedirs name w = (Ok tt, w1) →
  path_isdir w1 name = true ∧ cwd w1 = cwd w.
Proof.
  unfold os_makedirs. destruct (String.eqb name "") eqn:Hn; [done|].
  destruct (foldl _ _ _) as [[e|] m] eqn:Hf; [done|]. intros [= <-].
  split; [|done]. apply stat_dir_key; [done|].
  change (resolve (World m (cwd w)) name) with (resolve w name).
  destruct (resolve w name) as [|c key] eqn:Hr; [by left|]. right.
  destruct (ensure_dir_done _ _ _ _ _ Hf) as [Hin _].
  apply Hin, (chain_last (c :: key) []). done.
Qed.





End os_facts.

(** ** The configuration *)
Section config_facts.
Context `{JsonCodec}.
Import Os Converter.

Lemma stat_file_exists w p t :
  stat w p = Some (File t) → path_exists w p = true.
Proof. unfold path_exists. by intros ->. Qed.

Lemma json_load_parsed w p t v :
  stat w p = Some (File t) → json_loads t = Ok v →
  json_load p w = (Ok v, w).
Proof.
  intros Hs Hv. unfold json_load, read_text. py_unfold.
  by rewrite Hs, Hv.
Qed.

Lemma json_load_unparsable w p t msg :
  stat w p = Some (File t) → json_loads t = Raise (JSONDecodeError msg) →
  json_load p w = (Raise (JSONDecodeError msg), w).
Proof.
  intros Hs Hv. unfold json_load, read_text. py_unfold.
  by rewrite Hs, Hv.
Qed.

(** C2: when the file of the override exists and parses to a mapping,
    [_load_config] returns the defaults updated with the override: every
    default key is there, with the value of the override when it has the
    key and the default otherwise; every key of the override is there with
    its value; and with the override that maps only [ollama_model] to
    [llama3:8b] the result is the default configuration, in which [use_llm]
    is [True] and [ollama_model] is [qwen2.5:14b], with [ollama_model]
    replaced. *)
Theorem load_config_merges w config_path t override :
  stat w config_path = Some (File t) →
  json_loads t = Ok (JObj override) →
  ∃ cfg,
    _load_config (Some config_path) w = (Ok cfg, w)
    ∧ cfg = override ∪ default_config
    ∧ (∀ k v, default_config !! k = Some v →
         cfg !! k = Some (default v (override !! k)))
    ∧ (∀ k v, override !! k = Some v → cfg !! k = Some v)
    ∧ (override = {[ "ollama_model" := JStr "llama3:8b" ]} →
         default_config !! "use_llm" = Some (JBool true)
         ∧ default_config !! "ollama_model" = Some (JStr "qwen2.5:14b")
         ∧ cfg = <[ "ollama_model" := JStr "llama3:8b" ]> default_config).
Proof.
  intros Hs Hv. exists (override ∪ default_config).
  split; [|split; [done|split; [|split]]].
  - unfold _load_config, os_path_exists. py_unfold.
    rewrite (stat_file_exists _ _ _ Hs). simpl.
    by rewrite (json_load_parsed _ _ _ _ Hs Hv).
  - intros k v Hk. rewrite lookup_union.
    rewrite Hk. by destruct (override !! k).
  - intros k v Hk. by apply lookup_union_Some_l.
  - intros ->. split; [done|]. split; [done|].
    by rewrite insert_union_singleton_l.
Qed.

(** C4, what the code does: when the file of the override exists and does
    not parse, the handler of [_load_config] calls [json.JSONDecodeError]
    with the message alone, and the [TypeError] of that call is what
    [_load_config] raises: neither the path nor the parse failure is in
    it. *)
Theorem load_config_unparsable_raises_type_error w config_path t msg :
  stat w config_path = Some (File t) →
  json_loads t = Raise (JSONDecodeError msg) →
  _load_config (Some config_path) w =
    (Raise (TypeError "JSONDecodeError.__init__() missing 2 required positional arguments: 'doc' and 'pos'"), w).
Proof.
  intros Hs Hv. unfold _load_config, os_path_exists. py_unfold.
  rewrite (stat_file_exists _ _ _ Hs). simpl.
  by rewrite (json_load_unparsable _ _ _ _ Hs Hv).
Qed.

End config_facts.

(** ** The converter *)
Section converter_facts.
Context `{Converter.Marker}.
Import Os Converter.

(** The directory [convert_pdf] derives for its output. *)
Lemma convert_pdf_unfold self w pdf_path output_path :
  path_exists w pdf_path = true →
  convert_pdf pdf_path output_path (self, w) =
    (let root := match output_path with
                 | Some o => if path_exists w o then o else cwd w
                 | None => cwd w
                 end in
     let fname := (PosixPath.splitext (PosixPath.basename pdf_path)).1 in
     let final_output_path := PosixPath.join root fname in
     (in_os (os_makedirs final_output_path);;
      convert_into pdf_path final_output_path fname) (self, w)).
Proof.
  intros Hp. unfold convert_pdf, in_os, os_path_exists, os_getcwd.
  py_unfold. simpl. rewrite Hp. simpl.
  destruct output_path as [o|]; simpl; [|done].
  by destruct (path_exists w o).
Qed.

Lemma convert_into_returns pdf_path dir fname s d s' :
  convert_into pdf_path dir fname s = (Ok d, s') →
  d = dir
  ∧ ∃ r w, save_output r dir fname w = (Ok tt, s'.2).
Proof.
  destruct s as [self w]. unfold convert_into, _setup_converter.
  unfold get_self, set_converter, in_os. py_unfold. simpl.
  destruct (converter self) as [c|] eqn:Hc; simpl.
  - rewrite Hc.
    destruct (call_converter c pdf_path w) as [[r|e] w1]; [|done].
    destruct (save_output r dir fname w1) as [[[]|e] w2] eqn:Hs; [|done].
    intros [= <- <-]. split; [done|]. by exists r, w1.
  - destruct (new_pdf_converter (config self) w) as [[c|e] w0]; [|done].
    simpl.
    destruct (call_converter c pdf_path w0) as [[r|e] w1]; [|done].
    destruct (save_output r dir fname w1) as [[[]|e] w2] eqn:Hs; [|done].
    intros [= <- <-]. split; [done|]. by exists r, w1.
Qed.

Lemma isfile_exists w p : path_isfile w p = true → path_exists w p = true.
Proof. unfold path_isfile, path_exists. by destruct (stat w p). Qed.

(** C3, as the code has it: when nothing exists at the source path,
    [convert_pdf] raises [FileNotFoundError] and the instance and the file
    system are as before. *)
Theorem convert_pdf_missing_source self w pdf_path output_path :
  path_exists w pdf_path = false →
  convert_pdf pdf_path output_path (self, w) =
    (Raise (FileNotFoundError ("PDF file not found: " +:+ pdf_path)),
     (self, w)).
Proof.
  intros Hp. unfold convert_pdf, in_os, os_path_exists. py_unfold. simpl.
  by rewrite Hp.
Qed.




End converter_facts.

(** ** The mapping returned by [get_config] *)
Section objects_facts.
Import Objects.

Lemma mutate_frame l op (h : heap) r h' :
  mutate l op h = (r, h') →
  (∀ l0, l0 ≠ l → h' !! l0 = h !! l0)
  ∧ (∀ m, h !! l = Some (ODict m) → ∃ m', h' !! l = Some (ODict m')).
Proof.
  unfold mutate. destruct (h !! l) as [[m|xs]|] eqn:Hl.
  - destruct op as [k v|k|k|other|];
      try destruct (m !! k); intros [= <- <-];
      (split; [intros l0 Hne; by rewrite ?lookup_insert_ne|]);
      intros m0 _; rewrite ?lookup_insert_eq, ?Hl; by eexists.
  - intros [= <- <-]. split; [done|]. intros m; by rewrite Hl.
  - intros [= <- <-]. split; [done|]. intros m; by rewrite Hl.
Qed.

Lemma mutate_all_frame l ops : ∀ (h : heap) r h',
  mutate_all l ops h = (r, h') →
  ∀ l0, l0 ≠ l → h' !! l0 = h !! l0.
Proof.
  induction ops as [|op ops IH]; intros h r h'.
  - intros [= <- <-]. done.
  - simpl. py_unfold.
    destruct (mutate l op h) as [[[]|e] h1] eqn:Hm;
      destruct (mutate_frame _ _ _ _ _ Hm) as [Hfr _];
      intros Hrest l0 Hne; rewrite <- (Hfr l0 Hne);
      by eapply IH.
Qed.

Lemma observe_frame (h h' : heap) path : ∀ v v',
  (∀ l, l ∈ dom h → h' !! l = h !! l) →
  observe h v path = Some v' → observe h' v path = Some v'.
Proof.
  induction path as [|s path IH]; intros v v' Hfr; [done|].
  simpl. destruct (select h v s) as [v1|] eqn:Hs; [|done].
  intros Hobs. assert (select h' v s = Some v1) as ->; [|by eapply IH].
  unfold select in *. destruct v as [| | | |l]; try done.
  destruct (h !! l) as [o|] eqn:Hl; [|done].
  rewrite Hfr, Hl; [done|]. apply elem_of_dom. by rewrite Hl.
Qed.

(** C10: [get_config] returns a reference to a new dict with the items of
    [self.config]; whatever the caller then does to that dict, [self.config]
    still refers to the dict it referred to, with the items it had, every
    object that existed is as it was, and whatever could be read through
    [self.config], as a conversion does, is read again. *)
Theorem get_config_returns_copy self (h : heap) m ops :
  h !! self_config self = Some (ODict m) →
  ∃ l' h1,
    get_config self h = (Ok (VRef l'), h1)
    ∧ l' ≠ self_config self
    ∧ h1 !! l' = Some (ODict m)
    ∧ ∀ r hf, mutate_all l' ops h1 = (r, hf) →
        hf !! self_config self = Some (ODict m)
        ∧ (∀ l, l ∈ dom h → hf !! l = h !! l)
        ∧ (∀ path v,
             observe h (VRef (self_config self)) path = Some v →
             observe hf (VRef (self_config self)) path = Some v).
Proof.
  intros Hc. set (l' := fresh (dom h)).
  assert (l' ∉ dom h) as Hfresh by apply is_fresh.
  assert (∀ l, l ∈ dom h → l ≠ l') as Hold by (intros l Hl ->; done).
  assert (self_config self ∈ dom h) as Hdom
    by (apply elem_of_dom; by rewrite Hc).
  exists l', (<[l' := ODict m]> h).
  split; [|split; [|split]].
  - unfold get_config, dict_copy. by rewrite Hc.
  - intros Heq. apply (Hold _ Hdom). done.
  - apply lookup_insert_eq.
  - intros r hf Hmut.
    assert (∀ l, l ∈ dom h → hf !! l = h !! l) as Hfr.
    { intros l Hl.
      rewrite (mutate_all_frame _ _ _ _ _ Hmut l (Hold l Hl)).
      apply lookup_insert_ne. intros Heq. by apply (Hold l Hl). }
    split; [by rewrite Hfr|]. split; [done|].
    intros path v. by apply observe_frame.
Qed.

End objects_facts.

(** ** The claims on concrete inputs *)
Module Examples.
Import Os Converter History Doubles.
#[local] Existing Instance outcome_codec.
#[local] Existing Instance copying_marker.

Example basename_ex1 : PosixPath.basename "/srv/up/report.pdf" = "report.pdf".
Proof. reflexivity. Qed.
Example basename_ex2 : PosixPath.basename "report.pdf" = "report.pdf".
Proof. reflexivity. Qed.
Example basename_ex3 : PosixPath.basename "/data/" = "".
Proof. reflexivity. Qed.
Example splitext_ex1 : PosixPath.splitext "report.pdf" = ("report", ".pdf").
Proof. reflexivity. Qed.
Example splitext_ex2 : PosixPath.splitext ".hidden" = (".hidden", "").
Proof. reflexivity. Qed.
Example splitext_ex3 : PosixPath.splitext "a.tar.gz" = ("a.tar", ".gz").
Proof. reflexivity. Qed.
Example splitext_ex4 : PosixPath.splitext "x.d/report" = ("x.d/report", "").
Proof. reflexivity. Qed.
Example join_ex1 : PosixPath.join "/out" "report" = "/out/report".
Proof. reflexivity. Qed.
Example join_ex2 : PosixPath.join "/out/" "report" = "/out/report".
Proof. reflexivity. Qed.
Example join_ex3 : PosixPath.join "/out" "/abs" = "/abs".
Proof. reflexivity. Qed.

Lemma add_conversion_keeps_ten_newest_witness :
  load (None : store) = (Ok (JArr []), None)
  ∧ length (@nil json) ≤ MAX_RECENT_CONVERSIONS
  ∧ MAX_RECENT_CONVERSIONS < length eleven_requests
  ∧ ∃ st' kept,
      add_all eleven_requests None =
        (Ok ["c00"; "c01"; "c02"; "c03"; "c04"; "c05";
             "c06"; "c07"; "c08"; "c09"; "c10"], st')
      ∧ load st' = (Ok (JArr kept), st')
      ∧ kept = record_of ∘ request_of <$>
                 ["c10"; "c09"; "c08"; "c07"; "c06";
                  "c05"; "c04"; "c03"; "c02"; "c01"].
Proof.
  split; [reflexivity|]. split; [vm_compute; lia|].
  split; [vm_compute; lia|].
  destruct (add_conversion_keeps_ten_newest None [] eleven_requests)
    as [(st' & kept & Hall & Hload & _ & _ & Hkept) _];
    [reflexivity | vm_compute; lia | vm_compute; lia |].
  exists st', kept. split; [exact Hall|]. split; [exact Hload|].
  exact Hkept.
Defined.

Lemma get_conversion_unknown_id_witness :
  load (None : store) = (Ok (JArr []), None)
  ∧ ∃ ids st', add_all eleven_requests None = (Ok ids, st')
               ∧ get_conversion "c99" st' = (Ok None, st').
Proof.
  split; [reflexivity|].
  apply (get_conversion_unknown_id "c99" None [] eleven_requests);
    [reflexivity | constructor | repeat (constructor; [discriminate|]);
                                 constructor].
Defined.

Lemma load_config_merges_witness :
  stat machine "/etc/override.json"
    = Some (File (Some (JObj {[ "ollama_model" := JStr "llama3:8b" ]})))
  ∧ ∃ cfg,
      _load_config (Some "/etc/override.json") machine = (Ok cfg, machine)
      ∧ cfg = <[ "ollama_model" := JStr "llama3:8b" ]> default_config.
Proof.
  split; [reflexivity|].
  destruct (load_config_merges machine "/etc/override.json"
              (Some (JObj {[ "ollama_model" := JStr "llama3:8b" ]}))
              {[ "ollama_model" := JStr "llama3:8b" ]})
    as (cfg & Hrun & _ & _ & _ & Hcfg); [reflexivity | reflexivity |].
  exists cfg. split; [exact Hrun|]. apply Hcfg. reflexivity.
Defined.

Lemma load_config_unparsable_witness :
  stat machine "/etc/broken.json" = Some (File None)
  ∧ _load_config (Some "/etc/broken.json") machine =
      (Raise (TypeError "JSONDecodeError.__init__() missing 2 required positional arguments: 'doc' and 'pos'"),
       machine).
Proof.
  split; [reflexivity|].
  apply (load_config_unparsable_raises_type_error machine
           "/etc/broken.json" None
           "Expecting value: line 1 column 1 (char 0)");
    reflexivity.
Defined.

Lemma convert_pdf_missing_source_witness :
  path_exists machine "/work/absent.pdf" = false
  ∧ convert_pdf "/work/absent.pdf" (Some "/out") (fresh_converter, machine) =
      (Raise (FileNotFoundError "PDF file not found: /work/absent.pdf"),
       (fresh_converter, machine)).
Proof.
  split; [reflexivity|].
  apply (convert_pdf_missing_source fresh_converter machine
           "/work/absent.pdf" (Some "/out")).
  reflexivity.
Defined.

(** C3 as stated fails: [/data] is a directory, not a file, yet
    [convert_pdf] does not raise [FileNotFoundError] for it, and the output
    directory [/work/data], which did not exist, exists when the conversion
    library rejects the source. *)
Lemma convert_pdf_directory_source :
  path_isfile machine "/data" = false
  ∧ path_exists machine "/work/data" = false
  ∧ (convert_pdf "/data" None (fresh_converter, machine)).1
    = Raise (IsADirectoryError "/data")
  ∧ path_isdir (convert_pdf "/data" None (fresh_converter, machine)).2.2
      "/work/data" = true.
Proof.
  split; [reflexivity|]. split; [reflexivity|].
  split; vm_compute; reflexivity.
Qed.

Lemma copying_marker_writes_primary : save_output_writes_primary.
Proof.
  intros r dir base w w'. simpl. unfold copying_save_output.
  destruct (write_text _ _ _) as [[[]|e] w1]; [|done].
  destruct (path_isdir w1 dir) eqn:Hd; [|done].
  destruct (path_isfile w1 _) eqn:Hf; [|done].
  intros [= <-]. done.
Defined.



(** C5 as stated fails: a history file whose bytes are not text, or whose
    document is nested too deeply, makes [load] raise, the handler being
    for [JSONDecodeError] alone; and a history file that holds the JSON
    object [{}], which is not a log, is returned as it is and not as the
    empty log. *)
Lemma load_undecodable_history :
  @load reading_codec undecodable_log
  = (Raise (UnicodeDecodeError
      "'utf-8' codec can't decode byte 0xff in position 0: invalid start byte"),
     undecodable_log)
  ∧ @load reading_codec deep_log
    = (Raise (RecursionError "maximum recursion depth exceeded"), deep_log)
  ∧ @load reading_codec object_log = (Ok (JObj ∅), object_log).
Proof. split; [reflexivity|]. split; reflexivity. Qed.

Lemma load_outcomes_witness :
  @load reading_codec (Some (Raise (JSONDecodeError "Expecting value")))
  = (Ok (JArr []), Some (Raise (JSONDecodeError "Expecting value")))
  ∧ @load reading_codec (Some (Ok (JArr [JNull])))
    = (Ok (JArr [JNull]), Some (Ok (JArr [JNull]))).
Proof.
  split.
  - apply (proj1 (proj2 (@load_outcomes reading_codec
                           (Some (Raise (JSONDecodeError "Expecting value")))))
             (Raise (JSONDecodeError "Expecting value")) "Expecting value");
      reflexivity.
  - apply (proj1 (proj2 (proj2 (@load_outcomes reading_codec
                                   (Some (Ok (JArr [JNull]))))))
             (Ok (JArr [JNull])) (JArr [JNull])); reflexivity.
Defined.

Lemma save_load_roundtrip_witness :
  load one_record_log
  = (Ok (JArr [record_of (request_of "c00")]), one_record_log)
  ∧ ∃ st', save (JArr [record_of (request_of "c00")]) one_record_log
           = (Ok tt, st')
           ∧ load st' = (Ok (JArr [record_of (request_of "c00")]), st').
Proof.
  split; [reflexivity|].
  apply (save_load_roundtrip one_record_log
           (JArr [record_of (request_of "c00")])).
  reflexivity.
Defined.

Lemma get_config_returns_copy_witness :
  config_heap !! 1%positive
    = Some (Objects.ODict {[ "use_llm" := Objects.VBool true;
                             "languages" := Objects.VRef 2%positive ]})
  ∧ ∃ l' h1,
      Objects.get_config (Objects.Instance_ 1%positive) config_heap
        = (Ok (Objects.VRef l'), h1)
      ∧ ∀ r hf,
          Objects.mutate_all l'
            [Objects.SetItem "use_llm" (Objects.VBool false); Objects.Clear]
            h1 = (r, hf) →
          Objects.observe hf (Objects.VRef 1%positive) [Objects.Key "use_llm"]
            = Some (Objects.VBool true).
Proof.
  split; [reflexivity|].
  destruct (get_config_returns_copy (Objects.Instance_ 1%positive) config_heap _
              [Objects.SetItem "use_llm" (Objects.VBool false);
               Objects.Clear] eq_refl)
    as (l' & h1 & Hget & _ & _ & Hkeep).
  exists l', h1. split; [exact Hget|].
  intros r hf Hmut. destruct (Hkeep r hf Hmut) as (_ & _ & Hobs).
  apply Hobs. reflexivity.
Defined.

(** The copy is shallow: a list stored in the configuration is shared with
    the mapping [get_config] returns, and appending to it through that
    mapping is seen through [self.config]. *)
Remark get_config_shares_values :
  ∃ l' h1 hf,
    Objects.get_config (Objects.Instance_ 1%positive) config_heap
      = (Ok (Objects.VRef l'), h1)
    ∧ Objects.append_inside (Objects.VRef l') "languages" (Objects.VStr "de")
        h1 = (Ok tt, hf)
    ∧ Objects.observe config_heap (Objects.VRef 1%positive)
        [Objects.Key "languages"; Objects.Index 1] = None
    ∧ Objects.observe hf (Objects.VRef 1%positive)
        [Objects.Key "languages"; Objects.Index 1]
        = Some (Objects.VStr "de").
Proof.
  eexists _, _, _. split; [reflexivity|]. split; [reflexivity|].
  split; reflexivity.
Qed.

End Examples.

(** * Further properties *)

(** ** The conversion history: lookups *)
Section history_lookups.
Context `{JsonCodec}.
Import History.

Lemma scan_first_match ident pre c post m :
  Forall (λ c', has_other_id ident c' = true) pre →
  c = JObj m → m !! "id" = Some (JStr ident) →
  scan ident (pre ++ c :: post) = Ok (Some c).
Proof.
  intros Hpre -> Hid. induction Hpre as [|c' pre Hc' _ IH]; simpl.
  - rewrite Hid. unfold py_eq_str. by rewrite String.eqb_refl.
  - destruct c' as [| | | | |m']; try done. simpl in *.
    destruct (m' !! "id") as [v|]; [|done].
    by destruct (py_eq_str v ident).
Qed.

Lemma scan_missing_id ident pre post m :
  Forall (λ c', has_other_id ident c' = true) pre →
  m !! "id" = None →
  scan ident (pre ++ JObj m :: post) = Raise (KeyError "id").
Proof.
  intros Hpre Hid. induction Hpre as [|c' pre Hc' _ IH]; simpl.
  - by rewrite Hid.
  - destruct c' as [| | | | |m']; try done. simpl in *.
    destruct (m' !! "id") as [v|]; [|done].
    by destruct (py_eq_str v ident).
Qed.

Lemma get_conversion_on_list ident st l :
  load st = (Ok (JArr l), st) →
  get_conversion ident st = (scan ident l, st).
Proof.
  intros Hl. unfold get_conversion. py_unfold. rewrite Hl. simpl.
  unfold lift_res. by destruct (scan ident l).
Qed.

Lemma record_id r : ∃ m,
  record_of r = JObj m ∧ m !! "id" = Some (JStr (uuid4 (req_entropy r))).
Proof. by eexists. Qed.

Lemma get_conversion_added pdf_path output_path e st i st' :
  add_conversion pdf_path output_path e st = (Ok i, st') →
  get_conversion i st' =
    (Ok (Some (new_conversion pdf_path output_path e)), st').
Proof.
  unfold add_conversion. py_unfold.
  destruct (load st) as [[v|e0] st1]; [|by intros [=]].
  destruct v as [| | | |l|]; simpl; try (intros [=]; done).
  unfold lift_res, save, json_dump_history. intros [= <- <-].
  erewrite get_conversion_on_list;
    [|apply load_parsed; rewrite json_loads_dumps; reflexivity].
  unfold scan, new_conversion, py_getitem. rewrite lookup_insert_eq.
  unfold py_eq_str. by rewrite String.eqb_refl.
Qed.

(** X1: the identifier [add_conversion] returns retrieves the record it
    has just added. *)
Theorem get_conversion_after_add pdf_path output_path e st i st' :
  add_conversion pdf_path output_path e st = (Ok i, st') →
  get_conversion i st' =
    (Ok (Some (new_conversion pdf_path output_path e)), st').
Proof. apply get_conversion_added. Qed.

(** X2: a record can be retrieved by its identifier as long as fewer than
    10 records have been added after it, and no longer once 10 have. *)
Theorem get_conversion_retention r rs st l :
  load st = (Ok (JArr l), st) →
  Forall (λ r', uuid4 (req_entropy r') ≠ uuid4 (req_entropy r)) rs →
  ∃ ids st',
    add_all (r :: rs) st = (Ok ids, st')
    ∧ get_conversion (uuid4 (req_entropy r)) st' =
        (Ok (if decide (length rs < MAX_RECENT_CONVERSIONS)
             then Some (record_of r) else None), st').
Proof.
  unfold MAX_RECENT_CONVERSIONS. intros Hl Hrs.
  destruct (add_all_on_list (r :: rs) st l Hl) as (st' & Hall & Hl').
  eexists _, st'. split; [exact Hall|].
  rewrite (get_conversion_on_list _ _ _ Hl'). f_equal.
  rewrite fmap_cons, reverse_cons, <- app_assoc. simpl.
  set (newer := reverse (record_of <$> rs)).
  assert (length newer = length rs) as Hlen
    by (unfold newer; by rewrite length_reverse, length_fmap).
  assert (Forall (λ c, has_other_id (uuid4 (req_entropy r)) c = true) newer)
    as Hnewer.
  { apply Forall_reverse, Forall_fmap.
    eapply Forall_impl; [exact Hrs|]. intros r'. apply record_has_other_id. }
  destruct (decide (length rs < 10)) as [Hlt|Hge].
  - rewrite take_app_ge by lia.
    destruct (10 - length newer) as [|n] eqn:Hn; [lia|]. simpl.
    destruct (record_id r) as (m & Hm & Hid).
    by eapply scan_first_match.
  - rewrite take_app_le by lia.
    apply scan_miss. by apply Forall_take.
Qed.

(** X3: when the history file parses to something that is not a list,
    [add_conversion] raises [AttributeError] and leaves the file as it
    is. *)
Theorem add_conversion_needs_list pdf_path output_path e st v :
  load st = (Ok v, st) →
  (∀ l, v ≠ JArr l) →
  ∃ msg, add_conversion pdf_path output_path e st
         = (Raise (AttributeError msg), st).
Proof.
  intros Hv Hnl. unfold add_conversion. py_unfold. rewrite Hv.
  destruct v as [| | | |l|]; simpl; try by eexists.
  by destruct (Hnl l).
Qed.

(** X4: [get_conversion] returns the first record of the log that carries
    the identifier; the records after it are not looked at. *)
Theorem get_conversion_first_match ident st pre c post m :
  load st = (Ok (JArr (pre ++ c :: post)), st) →
  Forall (λ c', has_other_id ident c' = true) pre →
  c = JObj m → m !! "id" = Some (JStr ident) →
  get_conversion ident st = (Ok (Some c), st).
Proof.
  intros Hl Hpre Hc Hid. rewrite (get_conversion_on_list _ _ _ Hl).
  by erewrite scan_first_match.
Qed.

(** X5: a record without [id] that comes before any match makes
    [get_conversion] raise [KeyError]. *)
Theorem get_conversion_record_without_id ident st pre post m :
  load st = (Ok (JArr (pre ++ JObj m :: post)), st) →
  Forall (λ c', has_other_id ident c' = true) pre →
  m !! "id" = None →
  get_conversion ident st = (Raise (KeyError "id"), st).
Proof.
  intros Hl Hpre Hid. rewrite (get_conversion_on_list _ _ _ Hl).
  by erewrite scan_missing_id.
Qed.

(** X6: on a history file that is absent or does not parse,
    [add_conversion] writes a log that holds the new record only. *)
Theorem add_conversion_restarts_log pdf_path output_path e st :
  (st = None
   ∨ ∃ t msg, st = Some t ∧ json_loads t = Raise (JSONDecodeError msg)) →
  ∃ st', add_conversion pdf_path output_path e st = (Ok (uuid4 e), st')
         ∧ load st' =
             (Ok (JArr [new_conversion pdf_path output_path e]), st').
Proof.
  intros Hst.
  assert (load st = (Ok (JArr []), st)) as Hl.
  { destruct Hst as [->|(t & msg & -> & Ht)];
      [apply load_absent | by eapply load_unparsable]. }
  apply (add_on_list (Request pdf_path output_path e) st [] Hl).
Qed.

End history_lookups.

(** ** The configuration: errors and invariants *)
Section config_more.
Context `{JsonCodec}.
Import Os OsMore Converter.

Lemma json_load_frame p w r w' : json_load p w = (r, w') → w' = w.
Proof.
  unfold json_load, read_text. py_unfold.
  destruct (stat w p) as [[t|]|]; [|by intros [= _ <-]..].
  destruct (json_loads t); by intros [= _ <-].
Qed.

Lemma load_config_frame config_path w r w' :
  _load_config config_path w = (r, w') → w' = w.
Proof.
  destruct config_path as [p|]; [|by intros [= _ <-]].
  unfold _load_config, os_path_exists. py_unfold.
  destruct (path_exists w p); simpl; [|by intros [= _ <-]].
  destruct (json_load p w) as [[v|e] w1] eqn:Hload;
    apply json_load_frame in Hload as ->.
  - unfold lift_res. destruct (dict_update default_config v) as [d|e];
      [|destruct e]; intros Heq; simpl in Heq; unfold raise in Heq;
      congruence.
  - destruct e; intros Heq; simpl in Heq; unfold raise in Heq; congruence.
Qed.

(** X7: [_load_config] reads and never writes: whatever it returns or
    raises, the file system is as before. *)
Theorem load_config_reads_only config_path w r w' :
  _load_config config_path w = (r, w') → w' = w.
Proof. apply load_config_frame. Qed.

Lemma update_from_keeps_keys l : ∀ i d d' k,
  update_from i l d = Ok d' →
  is_Some (d !! k) → is_Some (d' !! k).
Proof.
  induction l as [|x l IH]; intros i d d' k.
  - by intros [= <-].
  - simpl. destruct (update_item i x) as [[[k0 v0]|]|e]; [| |done].
    + intros Hf Hk. apply (IH _ _ _ _ Hf).
      destruct (decide (k0 = k)) as [->|Hne].
      * rewrite lookup_insert_eq. by eexists.
      * by rewrite lookup_insert_ne.
    + apply IH.
Qed.

Lemma dict_update_keeps_keys d other d' k :
  dict_update d other = Ok d' →
  is_Some (d !! k) → is_Some (d' !! k).
Proof.
  destruct other as [| | |s|l|m]; simpl; try done.
  - apply update_from_keeps_keys.
  - apply update_from_keeps_keys.
  - intros [= <-] [v Hv]. destruct (m !! k) as [v'|] eqn:Hm.
    + exists v'. by apply lookup_union_Some_l.
    + exists v. rewrite lookup_union_r; done.
Qed.

(** X8: every configuration [_load_config] returns has all the keys of the
    default configuration, whatever the override holds. *)
Theorem load_config_has_default_keys config_path w cfg w' k :
  _load_config config_path w = (Ok cfg, w') →
  is_Some (default_config !! k) → is_Some (cfg !! k).
Proof.
  destruct config_path as [p|]; [|by intros [= <- _]].
  unfold _load_config, os_path_exists. py_unfold.
  destruct (path_exists w p); simpl; [|done].
  destruct (json_load p w) as [[v|e] w1].
  - unfold lift_res.
    destruct (dict_update default_config v) as [d|e] eqn:Hd;
      [|by destruct e].
    intros [= <- _]. by eapply dict_update_keeps_keys.
  - by destruct e.
Qed.

(** X9: an override file that parses to [null], a boolean or a number makes
    [_load_config] raise the [TypeError] of [dict.update]; the handler for
    parse errors does not apply, and no configuration is returned. *)
Theorem load_config_scalar_override w config_path t v :
  stat w config_path = Some (File t) →
  json_loads t = Ok v →
  match v with JNull | JBool _ | JInt _ => True | _ => False end →
  ∃ msg, _load_config (Some config_path) w = (Raise (TypeError msg), w).
Proof.
  intros Hs Hv Hscalar. unfold _load_config, os_path_exists. py_unfold.
  rewrite (stat_file_exists _ _ _ Hs). simpl.
  rewrite (json_load_parsed _ _ _ _ Hs Hv).
  destruct v; try done; by eexists.
Qed.

Lemma json_dump_then_load p v w w' :
  json_dump p v w = (Ok tt, w') →
  stat w' p = Some (File (json_dumps v)).
Proof.
  unfold json_dump, write_text.
  destruct (resolve w p) as [|c key] eqn:Hr; [done|].
  destruct (String.eqb p "") eqn:Hp; [done|].
  destruct (PosixPath.endswith_sep p) eqn:Hsep; [done|]. simpl.
  assert (∀ m, stat (World (<[c :: key := File (json_dumps v)]> m) (cwd w)) p
               = Some (File (json_dumps v))) as Hstat.
  { intros m. unfold stat. rewrite Hp.
    change (resolve (World _ (cwd w)) p) with (resolve w p).
    rewrite Hr. simpl. by rewrite lookup_insert_eq, Hsep. }
  intros Heq.
  assert (∃ m, w' = World (<[c :: key := File (json_dumps v)]> m) (cwd w))
    as [m ->]; [|apply Hstat].
  revert Heq. repeat case_match; try done; intros [= <-]; by eexists.
Qed.

End config_more.

(** ** The converter: the instance and the errors of the library *)
Section converter_more.
Context `{Converter.Marker}.
Import Os OsMore Converter.

Lemma ensure_dir_keeps name target ks : ∀ m m' k x,
  foldl (ensure_dir name target) (None, m) ks = (None, m') →
  m !! k = Some x → m' !! k = Some x.
Proof.
  induction ks as [|k0 ks IH]; intros m m' k x Hf Hk.
  - simpl in Hf. by injection Hf as <-.
  - simpl in Hf. destruct (m !! k0) as [[c|]|] eqn:Hk0.
    + by rewrite ensure_dir_stuck in Hf.
    + by eapply IH.
    + eapply IH; [exact Hf|].
      destruct (decide (k0 = k)) as [->|Hne]; [congruence|].
      by rewrite lookup_insert_ne.
Qed.

Lemma makedirs_keeps_stat name w w1 p n :
  os_makedirs name w = (Ok tt, w1) →
  stat w p = Some n → stat w1 p = Some n.
Proof.
  unfold os_makedirs. destruct (String.eqb name ""); [done|].
  destruct (foldl _ _ _) as [[e|] m] eqn:Hf; [done|]. intros [= <-].
  unfold stat. change (resolve (World m (cwd w)) p) with (resolve w p).
  destruct (String.eqb p ""); [done|].
  destruct (resolve w p) as [|c key]; [done|]. simpl.
  destruct (files w !! (c :: key)) as [x|] eqn:Hx; [|by destruct n].
  by rewrite (ensure_dir_keeps _ _ _ _ _ _ _ Hf Hx).
Qed.

Lemma makedirs_keeps_exists name w w1 p :
  os_makedirs name w = (Ok tt, w1) →
  path_exists w p = true → path_exists w1 p = true.
Proof.
  unfold path_exists. intros Hmk.
  destruct (stat w p) as [n|] eqn:Hs; [|done].
  by rewrite (makedirs_keeps_stat _ _ _ _ _ Hmk Hs).
Qed.

Lemma isdir_exists w p : path_isdir w p = true → path_exists w p = true.
Proof. unfold path_isdir, path_exists. by destruct (stat w p). Qed.

Lemma convert_into_instance pdf_path dir fname self w r self' w' :
  convert_into pdf_path dir fname (self, w) = (r, (self', w')) →
  config self' = config self
  ∧ (∀ c, converter self = Some c → self' = self)
  ∧ (∀ d, r = Ok d → is_Some (converter self')).
Proof.
  unfold convert_into, _setup_converter.
  unfold get_self, set_converter, in_os. py_unfold. simpl.
  destruct (converter self) as [c|] eqn:Hc; simpl.
  - rewrite Hc.
    destruct (call_converter c pdf_path w) as [[r0|e] w1];
      [destruct (save_output r0 dir fname w1) as [[[]|e] w2]|];
      intros [= <- <- <-]; rewrite ?Hc; by eauto.
  - destruct (new_pdf_converter (config self) w) as [[c|e] w0]; simpl;
      [|intros [= <- <- <-]; rewrite ?Hc; by eauto].
    destruct (call_converter c pdf_path w0) as [[r0|e] w1];
      [destruct (save_output r0 dir fname w1) as [[[]|e] w2]|];
      intros [= <- <- <-]; simpl; by eauto.
Qed.

(** X10: [convert_pdf] never changes [self.config]; an instance that has
    its converter is left as it is, so the converter is built once; and
    after a call that returned the instance has its converter. *)
Theorem convert_pdf_keeps_instance pdf_path output_path self w r self' w' :
  convert_pdf pdf_path output_path (self, w) = (r, (self', w')) →
  config self' = config self
  ∧ (∀ c, converter self = Some c → self' = self)
  ∧ (∀ d, r = Ok d → is_Some (converter self')).
Proof.
  destruct (path_exists w pdf_path) eqn:Hp.
  - rewrite (convert_pdf_unfold _ _ _ _ Hp). cbv zeta.
    unfold in_os at 1. py_unfold.
    destruct (os_makedirs _ w) as [[[]|e] w1].
    + apply convert_into_instance.
    + intros [= <- <- <-]. by eauto.
  - unfold convert_pdf, in_os, os_path_exists. py_unfold. simpl.
    rewrite Hp. simpl. intros [= <- <- <-]. by eauto.
Qed.

(** X11: an exception of the conversion call comes out of [convert_pdf] as
    it is, on a new instance, whose converter the call builds first, as on
    an instance that has its converter; the instance then holds the
    converter that was called, and the output directory, created before the
    call, is not removed by [convert_pdf]. *)
Theorem convert_pdf_propagates_call_error
    pdf_path output_path self w w1 c w1' e w2 :
  path_exists w pdf_path = true →
  let root := match output_path with
              | Some o => if path_exists w o then o else cwd w
              | None => cwd w
              end in
  let dir := PosixPath.join root
               (PosixPath.splitext (PosixPath.basename pdf_path)).1 in
  os_makedirs dir w = (Ok tt, w1) →
  match converter self with
  | None => new_pdf_converter (config self) w1 = (Ok c, w1')
  | Some c0 => c0 = c ∧ w1' = w1
  end →
  call_converter c pdf_path w1' = (Raise e, w2) →
  convert_pdf pdf_path output_path (self, w)
  = (Raise e, (Self (config self) (Some c), w2))
  ∧ path_isdir w1 dir = true.
Proof.
  intros Hp root dir Hmk Hc Hcall. split.
  - rewrite (convert_pdf_unfold _ _ _ _ Hp). cbv zeta. fold root dir.
    unfold in_os at 1. py_unfold. rewrite Hmk.
    unfold convert_into, _setup_converter, get_self, set_converter, in_os.
    py_unfold. simpl.
    destruct (converter self) as [c0|] eqn:Hself; simpl.
    + destruct Hc as [-> ->]. rewrite Hself, Hcall.
      destruct self as [cfg conv]. simpl in *. by rewrite Hself.
    + rewrite Hc. simpl. by rewrite Hcall.
  - by destruct (makedirs_creates _ _ _ Hmk).
Qed.

End converter_more.

(** ** The command line *)
Section cli_facts.
Context `{Converter.Marker}.
Import Os OsMore Converter Cli.

(** X12: the file [create_default_config] writes is a configuration file
    that [_load_config] reads back as the default configuration. *)
Theorem create_default_config_roundtrip config_path w w' :
  create_default_config config_path w = (Ok tt, w') →
  _load_config (Some config_path) w' = (Ok default_config, w').
Proof.
  intros Hs%json_dump_then_load.
  unfold _load_config, os_path_exists. py_unfold.
  rewrite (stat_file_exists _ _ _ Hs). simpl.
  by rewrite (json_load_parsed _ _ _ _ Hs (json_loads_dumps _)).
Qed.

Lemma bind_ok {S A B} (c : M S A) (k : A → M S B) s a s' :
  c s = (Ok a, s') → (c ≫= k) s = k a s'.
Proof. intros Hc. unfold mbind, M_bind. by rewrite Hc. Qed.

Lemma bind_raise {S A B} (c : M S A) (k : A → M S B) s e s' :
  c s = (Raise e, s') → (c ≫= k) s = (Raise e, s').
Proof. intros Hc. unfold mbind, M_bind. by rewrite Hc. Qed.

Ltac status_done :=
  simpl; eexists _, _; split; [reflexivity|]; ((by left) || (by right)).

Lemma on_instance_convert self w pdf_path output_path :
  ∃ r self' w',
    convert_pdf pdf_path output_path (self, w) = (r, (self', w'))
    ∧ on_instance self (convert_pdf pdf_path output_path) w = (r, w').
Proof.
  unfold on_instance.
  destruct (convert_pdf pdf_path output_path (self, w))
    as [r [self' w']]. by exists r, self', w'.
Qed.

(** The last step of [main]: the instance is built, the conversion runs,
    and every exception becomes the status 1. *)
Lemma main_convert_status (a : args) w :
  ∃ code w',
    try_except
      (converter ← __init__ (config_arg a);
       on_instance converter (convert_pdf (pdf a) (output a));;
       mret 0%Z)
      (λ e, match e with
            | FileNotFoundError _ => Some (mret 1%Z)
            | JSONDecodeError _ => Some (mret 1%Z)
            | _ => Some (mret 1%Z)
            end) w = (Ok code, w')
    ∧ (code = 0 ∨ code = 1)%Z.
Proof.
  unfold __init__. py_unfold.
  destruct (_load_config (config_arg a) w) as [[cfg|e] w1].
  - destruct (on_instance_convert (Self cfg None) w1 (pdf a) (output a))
      as (r & self' & w' & _ & ->).
    destruct r as [d|e]; [status_done|].
    destruct e; status_done.
  - destruct e; status_done.
Qed.

(** X13: [main] never raises: it returns the status 0 or the status 1. *)
Theorem main_exit_status (a : args) w :
  ∃ code w', main a w = (Ok code, w') ∧ (code = 0 ∨ code = 1)%Z.
Proof.
  unfold main. destruct (truthy (create_config a)).
  - unfold try_except.
    destruct (create_default_config (default "" (create_config a)) w)
      as [[[]|e] w1] eqn:Hc.
    + rewrite (bind_ok _ _ _ _ _ Hc). status_done.
    + rewrite (bind_raise _ _ _ _ _ Hc). status_done.
  - rewrite (bind_ok (os_path_exists (pdf a)) _ w _ w eq_refl).
    destruct (path_exists w (pdf a)); [|status_done]. simpl.
    destruct (truthy (output a)).
    + rewrite (bind_ok (os_path_exists _ ≫= _) _ w
                 (if path_exists w (default "" (output a)) then true
                  else match os_makedirs (default "" (output a)) w with
                       | (Ok _, _) => true
                       | (Raise _, _) => false
                       end)
                 (if path_exists w (default "" (output a)) then w
                  else (os_makedirs (default "" (output a)) w).2)).
      * destruct (path_exists w _).
        -- simpl. apply main_convert_status.
        -- destruct (os_makedirs (default "" (output a)) w)
             as [[[]|e] w1]; simpl;
             [apply main_convert_status | status_done].
      * rewrite (bind_ok (os_path_exists _) _ w _ w eq_refl).
        destruct (path_exists w _); [done|]. simpl. unfold try_except.
        destruct (os_makedirs (default "" (output a)) w)
          as [[[]|e] w1] eqn:Hmk.
        -- by rewrite (bind_ok _ _ _ _ _ Hmk).
        -- by rewrite (bind_raise _ _ _ _ _ Hmk).
    + rewrite (bind_ok (mret true) _ w true w eq_refl). simpl.
      apply main_convert_status.
Qed.

(** X14: when the PDF does not exist, [main] returns the status 1 and
    changes nothing; the output directory is not created. *)
Theorem main_missing_pdf (a : args) w :
  truthy (create_config a) = false →
  path_exists w (pdf a) = false →
  main a w = (Ok 1%Z, w).
Proof.
  intros Hc Hp. unfold main, os_path_exists. rewrite Hc. py_unfold.
  by rewrite Hp.
Qed.

(** X15: when the output directory given to [main] does not exist, [main]
    creates it, and a run that ends with the status 0 has put the document
    in the directory of the PDF's base name below it, not below the
    current directory. *)
Theorem main_creates_output_root (a : args) w o w' :
  save_output_writes_primary →
  truthy (create_config a) = false →
  path_exists w (pdf a) = true →
  output a = Some o → o ≠ "" →
  path_exists w o = false →
  main a w = (Ok 0%Z, w') →
  let fname := (PosixPath.splitext (PosixPath.basename (pdf a))).1 in
  let dir := PosixPath.join o fname in
  path_isdir w' dir = true
  ∧ ∃ r, path_isfile w'
           (PosixPath.join dir (fname +:+ "." +:+ extension r)) = true.
Proof.
  intros Hsave Hc Hp Ho Hne Hout Hmain fname dir.
  revert Hmain. unfold main, os_path_exists. rewrite Hc, Ho. py_unfold.
  unfold truthy. apply String.eqb_neq in Hne as ->. simpl.
  rewrite Hp. simpl. rewrite Hout. simpl.
  destruct (os_makedirs o w) as [[[]|e] w1] eqn:Hmk; simpl; [|done].
  destruct (makedirs_creates _ _ _ Hmk) as [Hodir _].
  pose proof (makedirs_keeps_exists _ _ _ _ Hmk Hp) as Hp1.
  unfold __init__. py_unfold.
  destruct (_load_config (config_arg a) w1) as [[cfg|e] w1'] eqn:Hcfg;
    [|by destruct e].
  apply load_config_frame in Hcfg as ->.
  unfold on_instance.
  rewrite (convert_pdf_unfold _ _ _ _ Hp1). cbv zeta.
  rewrite (isdir_exists _ _ Hodir). fold fname dir.
  unfold in_os at 1. py_unfold.
  destruct (os_makedirs dir w1) as [[[]|e] w2] eqn:Hmk2;
    [|by destruct e].
  destruct (convert_into (pdf a) dir fname (Self cfg None, w2))
    as [[d|e] [self' w3]] eqn:Hconv; [|by destruct e].
  intros [= <-].
  destruct (convert_into_returns _ _ _ _ _ _ Hconv) as (_ & r & w4 & Hs).
  destruct (Hsave _ _ _ _ _ Hs) as [Hd Hf]. simpl in *.
  split; [done|by exists r].
Qed.

End cli_facts.

(** ** src/PdfToMarkdown.py against the class *)
Section legacy_facts.
Context `{Converter.Marker}.
Import Os OsMore Converter Legacy.

Lemma exists_nonempty w p : path_exists w p = true → String.eqb p "" = false.
Proof.
  unfold path_exists, stat. by destruct (String.eqb p "").
Qed.

(** The directory [parse_checked] and [convert_pdf] write to. *)
Lemma parse_checked_unfold w pdf_path output_path :
  parse_checked pdf_path output_path w =
    (let root := match output_path with
                 | Some o => if path_exists w o then o else cwd w
                 | None => cwd w
                 end in
     let fname := (PosixPath.splitext (PosixPath.basename pdf_path)).1 in
     let dir := PosixPath.join root fname in
     (os_makedirs dir;;
      converter ← new_pdf_converter ollama_config;
      rendered ← call_converter converter pdf_path;
      save_output rendered dir fname) w).
Proof.
  unfold parse_checked, os_path_exists, os_getcwd. py_unfold.
  destruct output_path as [o|]; simpl; [|done].
  destruct (String.eqb o "") eqn:Ho; simpl.
  - apply String.eqb_eq in Ho as ->. done.
  - by destruct (path_exists w o).
Qed.

Lemma parse_pdf_as_convert_pdf w pdf_path output_path :
  path_exists w pdf_path = true →
  ∃ r self' w',
    convert_pdf pdf_path output_path (Self default_config None, w)
      = (r, (self', w'))
    ∧ parse_pdf (Some pdf_path) output_path w =
        (match r with
         | Ok _ => Returns tt
         | Raise e => Raises e
         end, w').
Proof.
  intros Hp. unfold parse_pdf. simpl.
  rewrite (exists_nonempty _ _ Hp), Hp. simpl.
  rewrite parse_checked_unfold, (convert_pdf_unfold _ _ _ _ Hp). cbv zeta.
  set (dir := PosixPath.join _ _).
  set (fname := (PosixPath.splitext _).1).
  unfold convert_into, _setup_converter, get_self, set_converter, in_os.
  py_unfold. simpl.
  destruct (os_makedirs dir w) as [[[]|e] w1]; simpl;
    [|eexists _, _, _; split; reflexivity].
  change ollama_config with default_config.
  destruct (new_pdf_converter default_config w1) as [[c|e] w2]; simpl;
    [|eexists _, _, _; split; reflexivity].
  destruct (call_converter c pdf_path w2) as [[rd|e] w3]; simpl;
    [|eexists _, _, _; split; reflexivity].
  destruct (save_output rd dir fname w3) as [[[]|e] w4]; simpl;
    eexists _, _, _; split; reflexivity.
Qed.

(** X16: on a PDF that exists, [parse_pdf] does what [convert_pdf] does on
    a new instance with the default configuration: the same file system
    results, [parse_pdf] returns when [convert_pdf] returns, and raises the
    exception [convert_pdf] raises. *)
Theorem parse_pdf_agrees_with_convert_pdf w pdf_path output_path :
  path_exists w pdf_path = true →
  ∃ r self' w',
    convert_pdf pdf_path output_path (Self default_config None, w)
      = (r, (self', w'))
    ∧ parse_pdf (Some pdf_path) output_path w =
        (match r with
         | Ok _ => Returns tt
         | Raise e => Raises e
         end, w').
Proof. apply parse_pdf_as_convert_pdf. Qed.

Lemma makedirs_new_keeps_exists name w r w1 p :
  os_makedirs_new name w = (r, w1) →
  (∀ e, r ≠ Raise e) →
  path_exists w p = true → path_exists w1 p = true.
Proof.
  unfold os_makedirs_new. destruct (path_exists w name).
  - intros [= <- <-] Hr. by destruct (Hr (FileExistsError name)).
  - destruct r as [[]|e]; [|intros _ Hr; by destruct (Hr e)].
    intros Hmk _. by apply (makedirs_keeps_exists _ _ _ _ Hmk).
Qed.

(** X17: the [main] of src/PdfToMarkdown.py returns the status 0 or the
    status 1: the [exit] of [parse_pdf] is never reached from it, because
    the PDF it has checked still exists after the output directory has
    been created. *)
Theorem legacy_main_exit_status (a : args) w :
  ∃ code w', main a w = (Returns code, w') ∧ (code = 0 ∨ code = 1)%Z.
Proof.
  unfold main. destruct (path_exists w (pdf a)) eqn:Hp; simpl;
    [|by eexists _, _; eauto].
  set (step := if (truthy (output a) && _)%bool then _ else _).
  assert (∃ created w1, step = (created, w1)
                        ∧ (created = true → path_exists w1 (pdf a) = true))
    as (created & w1 & -> & Hkeep).
  { unfold step. destruct (truthy (output a) && _)%bool;
      [|by eexists _, _].
    destruct (os_makedirs_new _ w) as [[[]|e] w1] eqn:Hmk;
      eexists _, _; (split; [reflexivity|]); [|done].
    intros _. by apply (makedirs_new_keeps_exists _ _ _ _ _ Hmk). }
  destruct created; simpl; [|by eexists _, _; eauto].
  destruct (parse_pdf_as_convert_pdf w1 (pdf a) (output a)
              (Hkeep eq_refl)) as (r & self' & w' & _ & ->).
  destruct r; by eexists _, _; eauto.
Qed.

End legacy_facts.

(** ** The web application *)
Section allowed_file_facts.
Import Web.

Lemma split_last_spec c s : ∀ h t,
  split_last c s = Some (h, t) →
  s = h +:+ String c t ∧ contains c t = false.
Proof.
  induction s as [|a s IH]; intros h t; simpl; [done|].
  destruct (split_last c s) as [[h' t']|] eqn:Hs.
  - intros [= <- <-]. destruct (IH _ _ eq_refl) as [-> Ht]. done.
  - destruct (Ascii.eqb a c) eqn:Ha; [|done]. intros [= <- <-].
    apply Ascii.eqb_eq in Ha as ->. split; [done|].
    clear IH. induction s as [|b s IHs]; [done|]. simpl in *.
    destruct (split_last c s) as [[? ?]|]; [done|].
    destruct (Ascii.eqb b c); [done|]. by apply IHs.
Qed.

Lemma split_last_none c s :
  split_last c s = None → contains c s = false.
Proof.
  induction s as [|a s IH]; simpl; [done|].
  destruct (split_last c s) as [[h t]|]; [done|].
  destruct (Ascii.eqb a c); [done|]. intros _. by apply IH.
Qed.

Lemma split_last_app c h t :
  contains c t = false →
  split_last c (h +:+ String c t) = Some (h, t).
Proof.
  intros Ht.
  assert (split_last c t = None) as Hnone.
  { induction t as [|a t IH]; [done|]. simpl in *.
    destruct (Ascii.eqb a c); [done|]. by rewrite IH. }
  induction h as [|a h IH]; simpl.
  - by rewrite Hnone, Ascii.eqb_refl.
  - by rewrite IH.
Qed.

Lemma contains_app c h t : contains c (h +:+ String c t) = true.
Proof.
  induction h as [|a h IH]; simpl.
  - by rewrite Ascii.eqb_refl.
  - rewrite IH. apply orb_true_r.
Qed.

Lemma lower_ascii_dot a :
  Ascii.eqb a "." = true → lower_ascii a = "."%char.
Proof. by intros ->%Ascii.eqb_eq. Qed.

Lemma lower_pdf_no_dot ext :
  lower ext = "pdf" → contains "." ext = false.
Proof.
  destruct ext as [|a [|b [|c [|d ext]]]]; try done. simpl.
  intros [= Ha Hb Hc].
  destruct (Ascii.eqb a ".") eqn:Ea;
    [apply lower_ascii_dot in Ea; congruence|].
  destruct (Ascii.eqb b ".") eqn:Eb;
    [apply lower_ascii_dot in Eb; congruence|].
  destruct (Ascii.eqb c ".") eqn:Ec;
    [apply lower_ascii_dot in Ec; congruence|].
  done.
Qed.

(** X18: [allowed_file] accepts exactly the names that end with a dot
    followed by [pdf] in any letter case; nothing is required of what
    precedes the dot, which may be empty or contain other dots. *)
Theorem allowed_file_spec filename :
  allowed_file filename = true
  ↔ ∃ stem ext, filename = stem +:+ "." +:+ ext ∧ lower ext = "pdf".
Proof.
  unfold allowed_file, rsplit1. split.
  - intros [Hdot Hext]%andb_true_iff.
    destruct (split_last "." filename) as [[h t]|] eqn:Hs.
    + simpl in Hext. apply bool_decide_eq_true in Hext.
      apply list_elem_of_singleton in Hext.
      destruct (split_last_spec _ _ _ _ Hs) as [-> _]. by exists h, t.
    + apply split_last_none in Hs. congruence.
  - intros (stem & ext & -> & Hext).
    change ("." +:+ ext) with (String "." ext).
    rewrite contains_app, split_last_app by by apply lower_pdf_no_dot.
    simpl. apply bool_decide_eq_true. rewrite Hext.
    by apply list_elem_of_singleton.
Qed.

End allowed_file_facts.

Section route_facts.
Context `{Converter.Marker}.
Import Os OsMore Converter History Web.

Lemma in_history_run {A} (c : M store A) s r h :
  c (history s) = (r, h) →
  in_history c s = (r, App h (disk s) (flashed s)).
Proof. intros Hc. unfold in_history. by rewrite Hc. Qed.

Lemma record_truthy pdf_path output_path e :
  not_conversion (Some (new_conversion pdf_path output_path e)) = false.
Proof.
  unfold not_conversion, new_conversion, truthy_json.
  destruct (map_to_list _) as [|x l] eqn:Hl; [|done].
  apply map_to_list_empty_iff in Hl.
  apply (f_equal (λ m : gmap string json, m !! "id")) in Hl.
  by rewrite lookup_insert_eq in Hl.
Qed.

Lemma app_eta s : App (history s) (disk s) (flashed s) = s.
Proof. by destruct s. Qed.

(** X19: for an identifier that no record of the log carries,
    [download_file] and [preview] flash [Conversion not found] and
    redirect to the index page; they do not raise and change neither the
    history nor the files. *)
Theorem routes_unknown_id markdown_html ident file_type s l :
  load (history s) = (Ok (JArr l), history s) →
  Forall (λ c, has_other_id ident c = true) l →
  download_file ident file_type s =
    (Ok (Redirect "index" []),
     App (history s) (disk s)
       (flashed s ++ [("Conversion not found", "error")]))
  ∧ preview markdown_html ident s =
    (Ok (Redirect "index" []),
     App (history s) (disk s)
       (flashed s ++ [("Conversion not found", "error")])).
Proof.
  intros Hl Hall.
  pose proof (get_conversion_miss _ _ _ Hl Hall) as Hget.
  split.
  - unfold download_file.
    rewrite (bind_ok _ _ _ _ _ (in_history_run _ _ _ _ Hget)).
    by rewrite app_eta.
  - unfold preview.
    rewrite (bind_ok _ _ _ _ _ (in_history_run _ _ _ _ Hget)).
    by rewrite app_eta.
Qed.

(** X20: [download_file] serves markdown only: for a recorded conversion
    and any file type other than [md] it flashes [Invalid file type] and
    redirects, whatever the conversion produced. *)
Theorem download_file_other_type ident file_type s pdf_path output_path e :
  get_conversion ident (history s) =
    (Ok (Some (new_conversion pdf_path output_path e)), history s) →
  file_type ≠ "md" →
  download_file ident file_type s =
    (Ok (Redirect "index" []),
     App (history s) (disk s)
       (flashed s ++ [("Invalid file type", "error")])).
Proof.
  intros Hget Hft. unfold download_file.
  rewrite (bind_ok _ _ _ _ _ (in_history_run _ _ _ _ Hget)).
  rewrite record_truthy, app_eta.
  unfold item_path, from_res, flash. py_unfold.
  replace (default JNull (Some (new_conversion pdf_path output_path e)))
    with (new_conversion pdf_path output_path e) by done.
  replace (py_getitem (new_conversion pdf_path output_path e) "filename")
    with (@Ok json (JStr (PosixPath.basename pdf_path))) by done.
  cbn [as_path]. cbv zeta.
  by apply String.eqb_neq in Hft as ->.
Qed.

Lemma download_file_md ident s c name out :
  get_conversion ident (history s) = (Ok (Some c), history s) →
  not_conversion (Some c) = false →
  py_getitem c "filename" = Ok (JStr name) →
  py_getitem c "output_path" = Ok (JStr out) →
  let filename := (PosixPath.splitext name).1 in
  let file_path := PosixPath.join out (filename +:+ ".md") in
  path_exists (disk s) file_path = true →
  download_file ident "md" s =
    (Ok (SendFromDirectory (dirname file_path)
           (PosixPath.basename file_path) (filename +:+ ".md")), s).
Proof.
  intros Hget Htrue Hname Hout filename file_path Hthere.
  unfold download_file.
  rewrite (bind_ok _ _ _ _ _ (in_history_run _ _ _ _ Hget)).
  rewrite Htrue, app_eta.
  unfold item_path, from_res, in_disk, os_path_exists. py_unfold.
  replace (default JNull (Some c)) with c by done.
  rewrite Hname, Hout. cbn [as_path].
  replace (String.eqb "md" "md") with true by done. cbv zeta.
  fold filename file_path. rewrite Hthere. by rewrite app_eta.
Qed.

(** X21: after [convert_pdf] has returned for a markdown conversion and
    [add_conversion] has recorded it, [download_file] with the returned
    identifier and the type [md] sends the document that was written, from
    the output directory, under the base name of the PDF with [.md]. *)
Theorem download_after_conversion
    pdf_path output_path self w dir self' w' e h i h' fl :
  save_output_writes_primary →
  (∀ r, extension r = "md") →
  convert_pdf pdf_path output_path (self, w) = (Ok dir, (self', w')) →
  add_conversion pdf_path dir e h = (Ok i, h') →
  let fname := (PosixPath.splitext (PosixPath.basename pdf_path)).1 in
  let file_path := PosixPath.join dir (fname +:+ ".md") in
  download_file i "md" (App h' w' fl) =
    (Ok (SendFromDirectory (dirname file_path)
           (PosixPath.basename file_path) (fname +:+ ".md")),
     App h' w' fl).
Proof.
  intros Hsave Hmd Hconv Hadd fname file_path.
  assert (path_isfile w' file_path = true) as Hfile.
  { destruct (path_exists w pdf_path) eqn:Hp.
    - rewrite (convert_pdf_unfold _ _ _ _ Hp) in Hconv. cbv zeta in Hconv.
      fold fname in Hconv. revert Hconv.
      unfold in_os at 1. py_unfold.
      destruct (os_makedirs _ w) as [[[]|e0] w1]; [|done].
      intros (<- & r & w2 & Hs)%convert_into_returns.
      destruct (Hsave _ _ _ _ _ Hs) as [_ Hf]. by rewrite Hmd in Hf.
    - revert Hconv. unfold convert_pdf, in_os, os_path_exists.
      py_unfold. simpl. by rewrite Hp. }
  pose proof (get_conversion_added _ _ _ _ _ _ Hadd) as Hget.
  apply (download_file_md i (App h' w' fl) _
           (PosixPath.basename pdf_path) dir Hget);
    [apply record_truthy | done | done |].
  by apply isfile_exists.
Qed.

Lemma read_text_frame p w r w' : read_text p w = (r, w') → w' = w.
Proof.
  unfold read_text. destruct (stat w p) as [[t|]|]; by intros [= _ <-].
Qed.



End route_facts.

Section upload_facts.
Context `{Converter.Marker}.
Import Os OsMore Converter History Cli Web Upload.
Variable secure_filename : string → string.
Variable UPLOAD_FOLDER OUTPUT_FOLDER : string.

Abbreviation route :=
  (convert_route secure_filename UPLOAD_FOLDER OUTPUT_FOLDER).

(** X23: a request without a file part, with an empty file name, or with
    a name [allowed_file] refuses is answered by one error message and a
    redirect to the index page; nothing is written and nothing is
    recorded. *)
Theorem convert_route_rejects (req : http_request) s :
  match file_part req with
  | None => True
  | Some file =>
      upload_filename file = ""
      ∨ allowed_file (upload_filename file) = false
  end →
  ∃ message,
    route req s =
      (Ok (Redirect "index" []),
       App (history s) (disk s) (flashed s ++ [(message, "error")])).
Proof.
  unfold convert_route. destruct (file_part req) as [file|].
  - intros [->|Hno]; [by eexists|].
    destruct (String.eqb (upload_filename file) ""); [by eexists|].
    rewrite Hno, andb_false_r. by eexists.
  - intros _. by eexists.
Qed.

Lemma in_disk_run {A} (c : M world A) s r w :
  c (disk s) = (r, w) →
  in_disk c s = (r, App (history s) w (flashed s)).
Proof. intros Hc. unfold in_disk. by rewrite Hc. Qed.

Lemma os_remove_gone p w w' :
  os_remove p w = (Ok tt, w') → path_exists w' p = false.
Proof.
  unfold os_remove, path_exists, stat.
  destruct (String.eqb p "") eqn:Hp; [done|].
  destruct (resolve w p) as [|c key] eqn:Hr; [done|].
  destruct (files w !! (c :: key)) as [[t|]|]; [|done..].
  destruct (PosixPath.endswith_sep p); [done|]. intros [= <-].
  change (resolve (World _ (cwd w)) p) with (resolve w p).
  rewrite Hr. simpl. by rewrite lookup_delete_eq.
Qed.

Lemma add_conversion_result pdf_path output_path e st i st' :
  add_conversion pdf_path output_path e st = (Ok i, st') → i = uuid4 e.
Proof.
  unfold add_conversion. py_unfold.
  destruct (load st) as [[v|e0] st1]; [|by intros [=]].
  destruct v as [| | | |l|]; simpl; intros [=]; done.
Qed.

Lemma flash_errors_run messages : ∀ s,
  flash_errors messages s =
    (Ok tt, App (history s) (disk s)
              (flashed s ++ ((λ m, (m, "error")) <$> messages))).
Proof.
  induction messages as [|m ms IH]; intros s; simpl.
  - unfold mret, M_ret. by rewrite app_nil_r, app_eta.
  - rewrite (bind_ok (flash m "error") _ s tt _ eq_refl), IH. simpl.
    by rewrite <- app_assoc.
Qed.

(** What the [try] block leaves when it returns. *)
Lemma convert_and_record_returns (req : http_request)
    pdf_path output_dir config_path s resp s' :
  convert_and_record req pdf_path output_dir config_path s = (Ok resp, s') →
  resp = Redirect "index" [("success", "PDF converted successfully!")]
  ∧ path_exists (disk s') config_path = false
  ∧ ∃ output_path,
      get_conversion (uuid4 (history_entropy req)) (history s') =
        (Ok (Some (new_conversion pdf_path output_path
                     (history_entropy req))), history s').
Proof.
  unfold convert_and_record.
  destruct (in_disk (__init__ (Some config_path)) s)
    as [[conv|e] s1] eqn:H1;
    [rewrite (bind_ok _ _ _ _ _ H1) | by rewrite (bind_raise _ _ _ _ _ H1)].
  destruct (in_disk (on_instance conv
              (convert_pdf pdf_path (Some output_dir))) s1)
    as [[output_path|e] s2] eqn:H2;
    [rewrite (bind_ok _ _ _ _ _ H2) | by rewrite (bind_raise _ _ _ _ _ H2)].
  destruct (add_conversion pdf_path output_path (history_entropy req)
              (history s2)) as [[i|e] h3] eqn:H3;
    [rewrite (bind_ok _ _ _ _ _ (in_history_run _ _ _ _ H3))
    | by rewrite (bind_raise _ _ _ _ _ (in_history_run _ _ _ _ H3))].
  pose proof (add_conversion_result _ _ _ _ _ _ H3) as ->.
  apply get_conversion_added in H3.
  unfold in_disk, os_path_exists, flash. py_unfold. simpl.
  destruct (path_exists (disk s2) config_path) eqn:Hthere;
    cbn [disk history flashed].
  - destruct (os_remove config_path (disk s2)) as [[[]|e] w4] eqn:H4;
      [|done].
    simpl. intros [= <- <-]. simpl.
    split; [done|]. split; [by eapply os_remove_gone|by eexists].
  - simpl. intros [= <- <-]. simpl. split; [done|]. split; [done|].
    by eexists.
Qed.

(** X24: when the route answers that the PDF was converted, the record of
    the conversion, made for the saved upload, is retrieved by the
    identifier drawn for it, and the temporary configuration file is no
    longer there. *)
Theorem convert_route_success (req : http_request) s s' :
  route req s =
    (Ok (Redirect "index" [("success", "PDF converted successfully!")]),
     s') →
  ∃ file output_path,
    file_part req = Some file
    ∧ get_conversion (uuid4 (history_entropy req)) (history s') =
        (Ok (Some (new_conversion
                     (PosixPath.join UPLOAD_FOLDER
                        (secure_filename (upload_filename file)))
                     output_path (history_entropy req))), history s')
    ∧ path_exists (disk s')
        (PosixPath.join UPLOAD_FOLDER (config_uuid req +:+ ".json"))
      = false.
Proof.
  unfold convert_route. destruct (file_part req) as [file|]; [|done].
  destruct (String.eqb (upload_filename file) ""); [done|].
  destruct (allowed_file (upload_filename file)); [|done]. simpl.
  set (pdf_path := PosixPath.join UPLOAD_FOLDER _).
  destruct (in_disk (file_save pdf_path (upload_content file)) s)
    as [[[]|e] s1] eqn:H1;
    [rewrite (bind_ok _ _ _ _ _ H1) | by rewrite (bind_raise _ _ _ _ _ H1)].
  destruct (form req) as [data|errors].
  - set (config_path := PosixPath.join UPLOAD_FOLDER _).
    set (out := if String.eqb (output_dir data) "" then _ else _).
    destruct (in_disk (json_dump config_path (JObj (web_config data))) s1)
      as [[[]|e] s2] eqn:H2;
      [rewrite (bind_ok _ _ _ _ _ H2)
      | by rewrite (bind_raise _ _ _ _ _ H2)].
    unfold try_except.
    destruct (convert_and_record req pdf_path out config_path s2)
      as [[resp|e] s3] eqn:H3; [|done].
    intros [= -> <-].
    destruct (convert_and_record_returns _ _ _ _ _ _ _ H3)
      as (_ & Hgone & output_path & Hget).
    by exists file, output_path.
  - rewrite (bind_ok _ _ _ _ _ (flash_errors_run _ _)). done.
Qed.

(** X25: when the form does not validate, the upload is saved and nothing
    else happens: no configuration is written, nothing is converted or
    recorded, and every error of the form is flashed. *)
Theorem convert_route_invalid_form (req : http_request) s file errors w1 :
  file_part req = Some file →
  upload_filename file ≠ "" →
  allowed_file (upload_filename file) = true →
  form req = inr errors →
  file_save (PosixPath.join UPLOAD_FOLDER
               (secure_filename (upload_filename file)))
    (upload_content file) (disk s) = (Ok tt, w1) →
  route req s =
    (Ok (Redirect "index" []),
     App (history s) w1
       (flashed s ++
        ((λ m, (m, "error")) <$> form_error_messages errors))).
Proof.
  intros Hfile Hname Hallowed Hform Hsave. unfold convert_route.
  rewrite Hfile, Hallowed, Hform.
  apply String.eqb_neq in Hname as ->. simpl.
  rewrite (bind_ok _ _ _ _ _ (in_disk_run _ _ _ _ Hsave)).
  by rewrite (bind_ok _ _ _ _ _ (flash_errors_run _ _)).
Qed.



End upload_facts.

(** ** The further properties on concrete inputs *)
Module MoreExamples.
Import Os OsMore Converter History Cli Web Upload Doubles Scenarios.
#[local] Existing Instance outcome_codec.
#[local] Existing Instance copying_marker.

Lemma pair_fst {A B} (x : A * B) a : x.1 = a → x = (a, x.2).
Proof. intros <-. by destruct x. Defined.

Lemma pair_fst2 {A B C} (x : A * (B * C)) a :
  x.1 = a → x = (a, (x.2.1, x.2.2)).
Proof. intros <-. by destruct x as [? [? ?]]. Defined.

Ltac by_run := apply pair_fst; vm_compute; reflexivity.

Lemma get_conversion_after_add_witness :
  ∃ st', add_conversion "/up/a.pdf" "/out/a" (Entropy "c07" "t") None
           = (Ok "c07", st')
         ∧ get_conversion "c07" st' =
             (Ok (Some (new_conversion "/up/a.pdf" "/out/a"
                          (Entropy "c07" "t"))), st').
Proof.
  exists (add_conversion "/up/a.pdf" "/out/a" (Entropy "c07" "t") None).2.
  split; [by_run|].
  apply (get_conversion_after_add "/up/a.pdf" "/out/a"
           (Entropy "c07" "t") None). by_run.
Defined.

Lemma get_conversion_retention_witness :
  ∃ ids st',
    add_all (request_of "c99" :: eleven_requests) None = (Ok ids, st')
    ∧ get_conversion "c99" st' = (Ok None, st').
Proof.
  apply (get_conversion_retention (request_of "c99") eleven_requests
           None []); [reflexivity|].
  repeat (constructor; [discriminate|]). constructor.
Defined.

Lemma add_conversion_needs_list_witness :
  ∃ msg, add_conversion "/up/a.pdf" "/out/a" (Entropy "c07" "t") dict_log
         = (Raise (AttributeError msg), dict_log).
Proof.
  apply (add_conversion_needs_list _ _ _ dict_log (JObj ∅));
    [reflexivity | discriminate].
Defined.

Lemma get_conversion_first_match_witness :
  get_conversion "c01" twin_log = (Ok (Some twin), twin_log).
Proof.
  apply (get_conversion_first_match "c01" twin_log [] twin
           [nameless; older_twin]
           {[ "id" := JStr "c01"; "filename" := JStr "new.pdf" ]});
    [reflexivity | constructor | reflexivity | reflexivity].
Defined.

Lemma get_conversion_record_without_id_witness :
  get_conversion "c01" nameless_log = (Raise (KeyError "id"), nameless_log).
Proof.
  apply (get_conversion_record_without_id "c01" nameless_log [] [twin]
           {[ "filename" := JStr "lost.pdf" ]});
    [reflexivity | constructor | reflexivity].
Defined.

Lemma add_conversion_restarts_log_witness :
  ∃ st', add_conversion "/up/a.pdf" "/out/a" (Entropy "c07" "t")
           unreadable_log = (Ok "c07", st')
         ∧ load st' =
             (Ok (JArr [new_conversion "/up/a.pdf" "/out/a"
                          (Entropy "c07" "t")]), st').
Proof.
  apply (add_conversion_restarts_log "/up/a.pdf" "/out/a"
           (Entropy "c07" "t") unreadable_log).
  right. by eexists None, _.
Defined.

Lemma load_config_reads_only_witness :
  (_load_config (Some "/etc/broken.json") machine).2 = machine.
Proof.
  apply (load_config_reads_only (Some "/etc/broken.json") machine
           (_load_config (Some "/etc/broken.json") machine).1).
  apply surjective_pairing.
Defined.

Lemma pair_returned {A B} (x : res A * B) d :
  returned x.1 = true → x = (Ok (value_or d x.1), x.2).
Proof. by destruct x as [[a|e] b]. Defined.

Lemma load_config_has_default_keys_witness :
  returned (_load_config (Some "/etc/pairs.json") server).1 = true
  ∧ is_Some (value_or ∅ (_load_config (Some "/etc/pairs.json") server).1
             !! "llm_service").
Proof.
  assert (returned (_load_config (Some "/etc/pairs.json") server).1 = true)
    as Hret by (vm_compute; reflexivity).
  split; [exact Hret|].
  apply (load_config_has_default_keys (Some "/etc/pairs.json") server
           _ (_load_config (Some "/etc/pairs.json") server).2);
    [apply pair_returned; exact Hret | by eexists].
Defined.

Lemma load_config_scalar_override_witness :
  ∃ msg, _load_config (Some "/etc/null.json") server
         = (Raise (TypeError msg), server).
Proof.
  apply (load_config_scalar_override server "/etc/null.json"
           (Some JNull) JNull); [reflexivity | reflexivity | exact I].
Defined.

Lemma convert_pdf_keeps_instance_witness :
  config (convert_pdf "report.pdf" (Some "/out")
            (fresh_converter, machine)).2.1
  = default_config.
Proof.
  apply (convert_pdf_keeps_instance "report.pdf" (Some "/out")
           fresh_converter machine
           (convert_pdf "report.pdf" (Some "/out")
              (fresh_converter, machine)).1 _
           (convert_pdf "report.pdf" (Some "/out")
              (fresh_converter, machine)).2.2).
  apply pair_fst2. reflexivity.
Defined.

Lemma convert_pdf_propagates_call_error_witness :
  converter fresh_converter = None
  ∧ (convert_pdf "/data" None (fresh_converter, machine)).1
    = Raise (IsADirectoryError "/data")
  ∧ converter (convert_pdf "/data" None (fresh_converter, machine)).2.1
    = Some default_config.
Proof.
  split; [reflexivity|].
  set (w1 := (os_makedirs "/work/data" machine).2).
  destruct (convert_pdf_propagates_call_error "/data" None
              fresh_converter machine w1
              default_config w1 (IsADirectoryError "/data") w1)
    as [-> _]; [reflexivity | by_run | reflexivity | by_run |].
  split; reflexivity.
Defined.

Lemma create_default_config_roundtrip_witness :
  ∃ w', create_default_config "/etc/default.json" machine = (Ok tt, w')
        ∧ _load_config (Some "/etc/default.json") w'
          = (Ok default_config, w').
Proof.
  exists (create_default_config "/etc/default.json" machine).2.
  split; [by_run|].
  apply (create_default_config_roundtrip "/etc/default.json" machine).
  by_run.
Defined.

Lemma main_missing_pdf_witness :
  main (Args "/work/absent.pdf" (Some "/new") None None) machine
  = (Ok 1%Z, machine).
Proof.
  apply (main_missing_pdf (Args "/work/absent.pdf" (Some "/new") None None)
           machine); reflexivity.
Defined.

Lemma main_creates_output_root_witness :
  ∃ w', main (Args "report.pdf" (Some "/new") None None) machine
          = (Ok 0%Z, w')
        ∧ path_isdir w' "/new/report" = true.
Proof.
  exists (main (Args "report.pdf" (Some "/new") None None) machine).2.
  split; [by_run|].
  apply (main_creates_output_root
           (Args "report.pdf" (Some "/new") None None) machine "/new");
    [exact Examples.copying_marker_writes_primary
    | reflexivity | reflexivity | reflexivity | discriminate
    | reflexivity | by_run].
Defined.

Lemma parse_pdf_agrees_with_convert_pdf_witness :
  ∃ r self' w',
    convert_pdf "report.pdf" (Some "/out") (Self default_config None, machine)
      = (r, (self', w'))
    ∧ Legacy.parse_pdf (Some "report.pdf") (Some "/out") machine =
        (match r with
         | Ok _ => Legacy.Returns tt
         | Raise e => Legacy.Raises e
         end, w').
Proof.
  apply (parse_pdf_agrees_with_convert_pdf machine "report.pdf"
           (Some "/out")). reflexivity.
Defined.

Lemma routes_unknown_id_witness :
  download_file "c99" "md" (fresh_app machine) =
    (Ok (Redirect "index" []),
     App None machine [("Conversion not found", "error")])
  ∧ preview plain_markdown "c99" (fresh_app machine) =
    (Ok (Redirect "index" []),
     App None machine [("Conversion not found", "error")]).
Proof.
  apply (routes_unknown_id plain_markdown "c99" "md" (fresh_app machine) []);
    [reflexivity | constructor].
Defined.

(** The history after one conversion of [report.pdf] has been recorded. *)
Lemma recorded_once :
  let h := (add_conversion "report.pdf" "/out/report"
              (Entropy "c07" "t") None).2 in
  get_conversion "c07" h =
    (Ok (Some (new_conversion "report.pdf" "/out/report"
                 (Entropy "c07" "t"))), h).
Proof.
  apply (get_conversion_added "report.pdf" "/out/report"
           (Entropy "c07" "t") None). by_run.
Defined.

Lemma download_file_other_type_witness :
  let h := (add_conversion "report.pdf" "/out/report"
              (Entropy "c07" "t") None).2 in
  download_file "c07" "html" (App h machine []) =
    (Ok (Redirect "index" []),
     App h machine [("Invalid file type", "error")]).
Proof.
  apply (download_file_other_type "c07" "html" (App _ machine [])
           "report.pdf" "/out/report" (Entropy "c07" "t"));
    [exact recorded_once | discriminate].
Defined.

Lemma download_after_conversion_witness :
  let run := convert_pdf "report.pdf" (Some "/out")
               (fresh_converter, machine) in
  let h := (add_conversion "report.pdf" "/out/report"
              (Entropy "c07" "t") None).2 in
  run.1 = Ok "/out/report"
  ∧ (download_file "c07" "md" (App h run.2.2 [])).1 =
      Ok (SendFromDirectory "/out/report" "report.md" "report.md").
Proof.
  intros run h.
  assert (run.1 = Ok "/out/report") as Hrun by (vm_compute; reflexivity).
  split; [exact Hrun|].
  rewrite (download_after_conversion "report.pdf" (Some "/out")
             fresh_converter machine "/out/report" run.2.1 run.2.2
             (Entropy "c07" "t") None "c07" h []
             Examples.copying_marker_writes_primary (λ _, eq_refl)
             (pair_fst2 run _ Hrun));
    [reflexivity | by_run].
Defined.


Lemma convert_route_rejects_witness :
  ∃ message,
    convert_route keep_name "/work/uploads" "/work/output" exe_request
      (fresh_app server) =
      (Ok (Redirect "index" []),
       App None server [(message, "error")]).
Proof.
  apply (convert_route_rejects keep_name "/work/uploads" "/work/output"
           exe_request (fresh_app server)).
  right. reflexivity.
Defined.

Lemma convert_route_success_witness :
  path_exists
    (disk (convert_route keep_name "/work/uploads" "/work/output"
             upload_request (fresh_app server)).2)
    "/work/uploads/tmp-1.json" = false.
Proof.
  assert ((convert_route keep_name "/work/uploads" "/work/output"
             upload_request (fresh_app server)).1
          = Ok (Redirect "index"
                  [("success", "PDF converted successfully!")])) as Hrun
    by (vm_compute; reflexivity).
  destruct (convert_route_success keep_name "/work/uploads" "/work/output"
              upload_request (fresh_app server) _ (pair_fst _ _ Hrun))
    as (file & output_path & _ & _ & Hgone).
  exact Hgone.
Defined.

Lemma convert_route_invalid_form_witness :
  convert_route keep_name "/work/uploads" "/work/output"
    invalid_form_request (fresh_app server) =
    (Ok (Redirect "index" []),
     App None
       (file_save "/work/uploads/report.pdf" (upload_content report_upload)
          server).2
       [("llm_model: Not a valid choice.", "error")]).
Proof.
  assert ((file_save "/work/uploads/report.pdf"
             (upload_content report_upload) server).1 = Ok tt) as Hsave
    by (vm_compute; reflexivity).
  exact (convert_route_invalid_form keep_name "/work/uploads" "/work/output"
           invalid_form_request (fresh_app server) report_upload
           [("llm_model", ["Not a valid choice."])] _
           eq_refl ltac:(discriminate) eq_refl eq_refl
           (pair_fst _ _ Hsave)).
Defined.


End MoreExamples.
